(** * Dynamic-Filter: the client-side filter engine ([src/engine/filterEngine.ts])

    A shallow embedding of the engine and of the declarations it uses from
    [src/types/filter.ts], followed by the properties of the specification.
    Around the engine, the embedding has the code that makes and edits the
    conditions and shows them: the default values, the schema of the
    application, the hook that keeps the list of conditions, the handlers of
    a row, the connector between rows, the count of active filters, the
    picker of a single date, and the rows of the CSV export.

    Modelling conventions.
    - A record is JSON data, a [JsData]: [undefined], [null], booleans,
      numbers, strings, arrays, and objects given by their own properties in
      order.  A value that the engine handles is a [JsValue]: data of a record,
      or one of the built-in objects that a property lookup reaches from it
      through the prototype chain ([Object.prototype], [Array.prototype],
      their methods).
    - [String(v)] and [Number(v)] return a [result]: on an object they call
      its [toString] and [valueOf], and raise a [TypeError] when neither gives
      a primitive value, which for data is the case when the object has an own
      property [toString].
    - A JavaScript number is an IEEE 754 binary64 value, Rocq's primitive
      [float]; [===], [<], [<=] on numbers are [PrimFloat.eqb], [ltb], [leb].
    - A JavaScript string is a [string], a sequence of code units below 256.
    - A call that can raise returns a [result]: [Ret v] or [Throw e].
    - The type of a field and the operator of a condition are strings, as
      they are at run time; a condition value is one of the shapes of
      [FilterValue], or [undefined] or [null], which the validator tests for.
    - What the engine takes from its platform and does not define itself
      (number parsing and printing, the regular-expression engine, dayjs and
      the clock) is a [Host]; every property is proved for all hosts.  The
      clock is read as one instant for a whole filter pass. *)

From Stdlib Require Import PrimFloat FloatOps SpecFloat Uint63 ZArith NArith.
From Stdlib Require Import Ascii String DecimalString List Bool Lia.
From Stdlib Require FloatAxioms.
From stdpp Require Import base option list strings gmap.

Local Open Scope Z_scope.

(* ------------------------------------------------------------------ *)
(** ** Results of calls that may raise *)

Inductive JsError :=
| TypeError (msg : string)
| SyntaxError (msg : string).

Inductive result (A : Type) :=
| Ret (a : A)
| Throw (e : JsError).
Arguments Ret {A} a.
Arguments Throw {A} e.

Definition result_bind {A B} (f : A → result B) (m : result A) : result B :=
  match m with
  | Ret a => f a
  | Throw e => Throw e
  end.

#[global] Instance result_mret : MRet result := @Ret.
#[global] Instance result_mbind : MBind result := @result_bind.

(** [try { body } catch { handler }] *)
Definition try_catch {A} (body : result A) (handler : JsError → result A) : result A :=
  match body with
  | Ret a => Ret a
  | Throw e => handler e
  end.

(** [Array.prototype.every], [some] and [filter] with a callback that may
    raise: the callback runs left to right, [every] stops at the first
    [false], [some] at the first [true], and an exception ends the loop. *)
Fixpoint every {A} (f : A → result bool) (l : list A) : result bool :=
  match l with
  | [] => Ret true
  | x :: l' => b ← f x; if b : bool then every f l' else Ret false
  end.

Fixpoint some {A} (f : A → result bool) (l : list A) : result bool :=
  match l with
  | [] => Ret false
  | x :: l' => b ← f x; if b : bool then Ret true else some f l'
  end.

Fixpoint filterA {A} (f : A → result bool) (l : list A) : result (list A) :=
  match l with
  | [] => Ret []
  | x :: l' =>
      b ← f x;
      rest ← filterA f l';
      Ret (if b : bool then x :: rest else rest)
  end.

(** [Array.prototype.map] with a callback that may raise. *)
Fixpoint mapA {A B} (f : A → result B) (l : list A) : result (list B) :=
  match l with
  | [] => Ret []
  | x :: l' => y ← f x; rest ← mapA f l'; Ret (y :: rest)
  end.

(** [Array.prototype.reduce] with a callback that may raise. *)
Fixpoint reduceA {A B} (f : B → A → result B) (l : list A) (acc : B) : result B :=
  match l with
  | [] => Ret acc
  | x :: l' => acc' ← f acc x; reduceA f l' acc'
  end.

(** What a callback decides, an exception counting as [false]. *)
Definition decided (r : result bool) : bool :=
  match r with
  | Ret b => b
  | Throw _ => false
  end.

(* ------------------------------------------------------------------ *)
(** ** Strings *)

Module Str.

Definition eqb (a b : string) : bool := String.eqb a b.

(** Code units with a lower-case counterpart below 256: A-Z, and the
    Latin-1 capitals U+00C0-U+00DE except the multiplication sign U+00D7. *)
Definition lowerChar (c : ascii) : ascii :=
  let n := N_of_ascii c in
  if ((65 <=? n) && (n <=? 90))%N then ascii_of_N (n + 32)
  else if ((192 <=? n) && (n <=? 222) && negb (n =? 215))%N then ascii_of_N (n + 32)
  else c.

(** [s.toLowerCase()] *)
Fixpoint toLowerCase (s : string) : string :=
  match s with
  | EmptyString => EmptyString
  | String c s' => String (lowerChar c) (toLowerCase s')
  end.

(** [s.startsWith(p)] *)
Definition startsWith (s p : string) : bool := String.prefix p s.

(** [s.includes(p)] *)
Fixpoint includes (s p : string) : bool :=
  String.prefix p s ||
  match s with
  | EmptyString => false
  | String _ s' => includes s' p
  end.

(** [s.endsWith(p)] *)
Definition endsWith (s p : string) : bool :=
  let n := String.length s in
  let k := String.length p in
  (k <=? n)%nat && eqb (String.substring (n - k) k s) p.

(** [s.split(sep)] for a one-character separator. *)
Fixpoint split (sep : ascii) (s : string) : list string :=
  match s with
  | EmptyString => [EmptyString]
  | String c s' =>
      if Ascii.eqb c sep then EmptyString :: split sep s'
      else match split sep s' with
           | h :: t => String c h :: t
           | [] => [String c EmptyString]
           end
  end.

(** [a.join(sep)] on strings. *)
Fixpoint join (sep : string) (l : list string) : string :=
  match l with
  | [] => EmptyString
  | [x] => x
  | x :: l' => x +:+ sep +:+ join sep l'
  end.

Definition digit (c : ascii) : option N :=
  let n := N_of_ascii c in
  if ((48 <=? n) && (n <=? 57))%N then Some (n - 48)%N else None.

Fixpoint digits (s : string) (acc : N) : option N :=
  match s with
  | EmptyString => Some acc
  | String c s' =>
      match digit c with
      | Some d => digits s' (10 * acc + d)%N
      | None => None
      end
  end.

(** An array index is a canonical numeric string (no sign, no leading zero
    but ["0"] itself) whose value is at most 2^32 - 2. *)
Definition arrayIndex (s : string) : option N :=
  match s with
  | EmptyString => None
  | String c s' =>
      if Ascii.eqb c "0" && negb (eqb s' EmptyString) then None
      else match digits s 0 with
           | Some n => if (n <=? 4294967294)%N then Some n else None
           | None => None
           end
  end.

End Str.

(* ------------------------------------------------------------------ *)
(** ** JavaScript values and the data model of [src/types/filter.ts] *)

(** The built-in objects that a property lookup reaches from JSON data:
    the two prototypes, and a method found on one of them. *)
Inductive Intrinsic :=
| ObjectPrototype
| ArrayPrototype
| Method (ofArray : bool) (name : string).

(** The data a record is made of: JSON data, and [undefined].  An object
    is its own properties in order; none of them is a function. *)
Inductive JsData :=
| JUndefined
| JNull
| JBool (b : bool)
| JNum (n : float)
| JStr (s : string)
| JArr (elems : list JsData)
| JObj (props : list (string * JsData)).

(** A value that the engine handles: data of a record, or a built-in that
    a property lookup has reached. *)
Inductive JsValue :=
| JData (d : JsData)
| JIntrinsic (i : Intrinsic).

Coercion JData : JsData >-> JsValue.

(** The properties of [Object.prototype] (ECMAScript 20.1.3 and B.2.2),
    which every plain object inherits. *)
Definition Object_prototype_names : list string :=
  [ "constructor"; "hasOwnProperty"; "isPrototypeOf"; "propertyIsEnumerable";
    "toLocaleString"; "toString"; "valueOf"; "__proto__";
    "__defineGetter__"; "__defineSetter__"; "__lookupGetter__"; "__lookupSetter__" ].

Definition inheritedName (k : string) : bool := existsb (Str.eqb k) Object_prototype_names.

(** [Record<string, unknown>]: the own properties of a record, in order. *)
Definition Record := list (string * JsData).

(** [export const FieldType = { Text: "text", ... } as const] *)
Module FieldType.
Definition Text : string := "text".
Definition Number : string := "number".
Definition Date : string := "date".
Definition Amount : string := "amount".
Definition SingleSelect : string := "singleSelect".
Definition MultiSelect : string := "multiSelect".
Definition Boolean : string := "boolean".
End FieldType.

(** [number | ""], the type of [NumberRange.min] and [NumberRange.max]. *)
Inductive NumberOrEmpty :=
| EmptyStr
| NumVal (n : float).

(** [FilterValue], with the two values [isValidFilter] also tests for. *)
Inductive FilterValue :=
| FvUndefined
| FvNull
| FvStr (s : string)
| FvNum (n : float)
| FvBool (b : bool)
| FvList (l : list string)
| FvDateRange (start end_ : string)
| FvNumberRange (min max : NumberOrEmpty).

Record FilterCondition := {
  id : string;
  fieldKey : string;
  operator : string;
  value : FilterValue
}.

Record SelectOption := {
  so_label : string;
  so_value : string
}.

Record FieldDefinition := {
  key : string;
  label : string;
  type : string;
  options : option (list SelectOption);
  nested : option bool
}.

(** [OPERATORS_BY_TYPE] *)
Definition OPERATORS_BY_TYPE (t : string) : list string :=
  if Str.eqb t FieldType.Text then
    ["equals"; "contains"; "startsWith"; "endsWith"; "doesNotContain"; "regex"]
  else if Str.eqb t FieldType.Number then
    ["eq"; "neq"; "gt"; "lt"; "gte"; "lte"; "numberBetween"]
  else if Str.eqb t FieldType.Date then
    ["between"; "before"; "after"; "last7days"; "last30days"; "last90days"]
  else if Str.eqb t FieldType.Amount then ["between"]
  else if Str.eqb t FieldType.SingleSelect then ["is"; "isNot"]
  else if Str.eqb t FieldType.MultiSelect then ["in"; "notIn"; "all"]
  else if Str.eqb t FieldType.Boolean then ["is"]
  else [].

(* ------------------------------------------------------------------ *)
(** ** The platform *)

Record Host := {
  (** [Number(s)] on a string, and [String(n)] on a number *)
  StringToNumber : string → float;
  NumberToString : float → string;
  (** the names of the methods of [Array.prototype], and [String(f)] on a
      built-in method, given by its prototype and its name *)
  ArrayPrototype_has : string → bool;
  FunctionToString : bool → string → string;
  (** [new RegExp(pattern, flags)], which raises a [SyntaxError] on an
      invalid pattern, and [re.test(s)] *)
  RegExp : Type;
  RegExp_new : string → string → result RegExp;
  RegExp_test : RegExp → string → bool;
  (** dayjs: [dayjs(s)], [dayjs()], [d.isValid()], [d.subtract(n, unit)] and
      the comparisons [d.isAfter(that, unit?)], [d.isBefore(that, unit?)],
      [d.isSame(that, unit?)] *)
  Dayjs : Type;
  dayjs : string → Dayjs;
  dayjs_now : Dayjs;
  isValid : Dayjs → bool;
  subtract : Dayjs → Z → string → Dayjs;
  isAfter : Dayjs → Dayjs → option string → bool;
  isBefore : Dayjs → Dayjs → option string → bool;
  isSame : Dayjs → Dayjs → option string → bool
}.

(* ------------------------------------------------------------------ *)
(** ** Coercions and operators of the language *)

(** [Boolean(v)] *)
Definition ToBoolean (v : JsValue) : bool :=
  match v with
  | JData (JUndefined | JNull) => false
  | JData (JBool b) => b
  | JData (JNum n) => negb (PrimFloat.eqb n PrimFloat.zero || PrimFloat.is_nan n)
  | JData (JStr s) => negb (Str.eqb s "")
  | JData (JArr _ | JObj _) | JIntrinsic _ => true
  end.

(** [typeof v] *)
Definition typeof (v : JsValue) : string :=
  match v with
  | JData JUndefined => "undefined"
  | JData (JBool _) => "boolean"
  | JData (JNum _) => "number"
  | JData (JStr _) => "string"
  | JIntrinsic (Method _ _) => "function"
  | JData (JNull | JArr _ | JObj _) | JIntrinsic _ => "object"
  end.

(** The elements of an array; [Array.prototype] is an array without
    elements. *)
Definition arrayElements (v : JsValue) : option (list JsData) :=
  match v with
  | JData (JArr elems) => Some elems
  | JIntrinsic ArrayPrototype => Some []
  | _ => None
  end.

(** [Array.isArray(v)] *)
Definition isArray (v : JsValue) : bool :=
  match arrayElements v with
  | Some _ => true
  | None => false
  end.

Definition nat_to_number (n : nat) : float :=
  PrimFloat.of_uint63 (Uint63.of_Z (Z.of_nat n)).

Fixpoint assoc {A} (k : string) (props : list (string * A)) : option A :=
  match props with
  | [] => None
  | (k', v) :: props' => if Str.eqb k k' then Some v else assoc k props'
  end.

(** The prototype of an object, which the inherited [__proto__] reads. *)
Definition prototypeOf (v : JsValue) : JsValue :=
  match v with
  | JData (JObj _) => JIntrinsic ObjectPrototype
  | JData (JArr _) => JIntrinsic ArrayPrototype
  | JIntrinsic ArrayPrototype => JIntrinsic ObjectPrototype
  | _ => JNull
  end.

(** [v ?? d] *)
Definition nullish (v d : JsValue) : JsValue :=
  match v with
  | JData (JUndefined | JNull) => d
  | _ => v
  end.

(** [a.includes(x)] on an array, for a string [x] (SameValueZero). *)
Definition arrayIncludes (elems : list JsData) (x : string) : bool :=
  existsb (λ e, match e with JStr s => Str.eqb s x | _ => false end) elems.

(** [a >= b] and [a <= b] on numbers *)
Definition num_ge (a b : float) : bool := PrimFloat.leb b a.
Definition num_le (a b : float) : bool := PrimFloat.leb a b.
Definition num_gt (a b : float) : bool := PrimFloat.ltb b a.
Definition num_lt (a b : float) : bool := PrimFloat.ltb a b.

(** Reading a property of a condition value: [undefined] and [null] raise,
    a value without the property reads as [undefined] ([None]). *)
Definition readOf {A} (nothing prop : string) : result A :=
  Throw (TypeError ("Cannot read properties of " +:+ nothing
                    +:+ " (reading '" +:+ prop +:+ "')")).

Definition get_min (fv : FilterValue) : result (option NumberOrEmpty) :=
  match fv with
  | FvUndefined => readOf "undefined" "min"
  | FvNull => readOf "null" "min"
  | FvNumberRange mn _ => Ret (Some mn)
  | _ => Ret None
  end.

Definition get_max (fv : FilterValue) : result (option NumberOrEmpty) :=
  match fv with
  | FvUndefined => readOf "undefined" "max"
  | FvNull => readOf "null" "max"
  | FvNumberRange _ mx => Ret (Some mx)
  | _ => Ret None
  end.

Definition get_start (fv : FilterValue) : result (option string) :=
  match fv with
  | FvUndefined => readOf "undefined" "start"
  | FvNull => readOf "null" "start"
  | FvDateRange s _ => Ret (Some s)
  | _ => Ret None
  end.

Definition get_end (fv : FilterValue) : result (option string) :=
  match fv with
  | FvUndefined => readOf "undefined" "end"
  | FvNull => readOf "null" "end"
  | FvDateRange _ e => Ret (Some e)
  | _ => Ret None
  end.

Definition get_length (fv : FilterValue) : result (option nat) :=
  match fv with
  | FvUndefined => readOf "undefined" "length"
  | FvNull => readOf "null" "length"
  | FvStr s => Ret (Some (String.length s))
  | FvList l => Ret (Some (length l))
  | _ => Ret None
  end.

(** [x === ""] on a bound of a range *)
Definition isEmptyStr (x : NumberOrEmpty) : bool :=
  match x with
  | EmptyStr => true
  | NumVal _ => false
  end.

(** [p === "" ? dflt : Number(p)] for a property read by [get_min] or
    [get_max]; [Number(undefined)] is NaN. *)
Definition boundOr (dflt : float) (p : option NumberOrEmpty) : float :=
  match p with
  | Some EmptyStr => dflt
  | Some (NumVal n) => n
  | None => PrimFloat.nan
  end.

(** [s ? dayjs(s) : null] for a property read by [get_start] or [get_end]. *)
Definition truthyString (p : option string) : option string :=
  match p with
  | Some s => if Str.eqb s "" then None else Some s
  | None => None
  end.

Section Engine.
Context (H : Host).

(** The conversion of an object to a primitive value calls its [toString]
    and its [valueOf], in the order of the hint, and takes the first
    primitive result.  An object of the data inherits both from
    [Object.prototype]: [toString] gives ["[object Object]"], [valueOf] gives
    the object itself, which is not a primitive.  An own property of one of
    these names hides the inherited method and, being data, cannot be
    called: with an own [toString] no call gives a primitive, and the
    conversion raises; an own [valueOf] changes nothing. *)
Definition toPrimitiveError : JsError :=
  TypeError "Cannot convert object to primitive value".

Definition hasOwnToString (props : list (string * JsData)) : bool :=
  bool_decide (is_Some (assoc "toString" props)).

(** [String(d)] on data.  An array is joined by commas
    ([Array.prototype.toString]), its elements converted from left to right,
    [undefined] and [null] as the empty string. *)
Fixpoint DataToString (d : JsData) : result string :=
  match d with
  | JUndefined => Ret "undefined"
  | JNull => Ret "null"
  | JBool b => Ret (if b then "true" else "false")
  | JNum n => Ret (NumberToString H n)
  | JStr s => Ret s
  | JArr elems =>
      parts ← mapA (λ e, match e with
                         | JUndefined | JNull => Ret ""
                         | _ => DataToString e
                         end) elems;
      Ret (Str.join "," parts)
  | JObj props =>
      if hasOwnToString props then Throw toPrimitiveError else Ret "[object Object]"
  end.

(** [String(v)] *)
Definition ToString (v : JsValue) : result string :=
  match v with
  | JData d => DataToString d
  | JIntrinsic ObjectPrototype => Ret "[object Object]"
  | JIntrinsic ArrayPrototype => Ret ""
  | JIntrinsic (Method ofArray name) => Ret (FunctionToString H ofArray name)
  end.

(** [Number(v)] *)
Definition ToNumber (v : JsValue) : result float :=
  match v with
  | JData JUndefined => Ret PrimFloat.nan
  | JData JNull => Ret PrimFloat.zero
  | JData (JBool b) => Ret (if b then PrimFloat.one else PrimFloat.zero)
  | JData (JNum n) => Ret n
  | JData (JStr s) => Ret (StringToNumber H s)
  | JData (JArr _) | JIntrinsic ArrayPrototype =>
      s ← ToString v; Ret (StringToNumber H s)
  | JData (JObj props) =>
      if hasOwnToString props then Throw toPrimitiveError else Ret PrimFloat.nan
  | JIntrinsic _ => Ret PrimFloat.nan
  end.

(** [Number(fv)] on a condition value *)
Definition FilterValue_ToNumber (fv : FilterValue) : float :=
  match fv with
  | FvUndefined => PrimFloat.nan
  | FvNull => PrimFloat.zero
  | FvStr s => StringToNumber H s
  | FvNum n => n
  | FvBool b => if b then PrimFloat.one else PrimFloat.zero
  | FvList l => StringToNumber H (Str.join "," l)
  | FvDateRange _ _ | FvNumberRange _ _ => PrimFloat.nan
  end.

(* ------------------------------------------------------------------ *)
(** ** Property lookup *)

(** What an object finds on [Object.prototype]. *)
Definition inheritedFromObject (receiver : JsValue) (key : string) : option JsValue :=
  if Str.eqb key "__proto__" then Some (prototypeOf receiver)
  else if inheritedName key then Some (JIntrinsic (Method false key))
  else None.

(** What an array finds on [Array.prototype] and, behind it, on
    [Object.prototype]. *)
Definition inheritedFromArray (receiver : JsValue) (key : string) : option JsValue :=
  if ArrayPrototype_has H key then Some (JIntrinsic (Method true key))
  else inheritedFromObject receiver key.

(** The property [key] of [v], own or inherited, when it has one. *)
Definition lookupProperty (v : JsValue) (key : string) : option JsValue :=
  match v with
  | JData (JObj props) =>
      match assoc key props with
      | Some x => Some (JData x)
      | None => inheritedFromObject v key
      end
  | JData (JArr elems) =>
      if Str.eqb key "length" then Some (JData (JNum (nat_to_number (length elems))))
      else match Str.arrayIndex key ≫= λ i, elems !! N.to_nat i with
           | Some x => Some (JData x)
           | None => inheritedFromArray v key
           end
  | JIntrinsic ObjectPrototype => inheritedFromObject v key
  | JIntrinsic ArrayPrototype =>
      if Str.eqb key "length" then Some (JData (JNum PrimFloat.zero))
      else inheritedFromArray v key
  | _ => None
  end.

(** [key in v] for an object or an array [v]. *)
Definition hasProperty (key : string) (v : JsValue) : bool :=
  match lookupProperty v key with
  | Some _ => true
  | None => false
  end.

(** [v[key]] *)
Definition getProperty (v : JsValue) (key : string) : JsValue :=
  default (JData JUndefined) (lookupProperty v key).

(* ------------------------------------------------------------------ *)
(** ** Nested value access *)

Definition getNestedValue_step (acc : JsValue) (key : string) : JsValue :=
  if ToBoolean acc && Str.eqb (typeof acc) "object" && hasProperty key acc
  then getProperty acc key
  else JUndefined.

Definition getNestedValue (obj : Record) (path : string) : JsValue :=
  fold_left getNestedValue_step (Str.split "." path) (JData (JObj obj)).

(* ------------------------------------------------------------------ *)
(** ** Text matchers *)

Definition matchText (value : string) (filterValue : FilterValue) (operator : string)
  : result bool :=
  let v := Str.toLowerCase value in
  match filterValue with
  | FvStr fs =>
      let f := Str.toLowerCase fs in
      if Str.eqb operator "equals" then Ret (Str.eqb v f)
      else if Str.eqb operator "contains" then Ret (Str.includes v f)
      else if Str.eqb operator "startsWith" then Ret (Str.startsWith v f)
      else if Str.eqb operator "endsWith" then Ret (Str.endsWith v f)
      else if Str.eqb operator "doesNotContain" then Ret (negb (Str.includes v f))
      else if Str.eqb operator "regex" then
        try_catch
          (re ← RegExp_new H fs "i"; Ret (RegExp_test H re value))
          (λ _, Ret false)
      else Ret false
  | FvUndefined => readOf "undefined" "toLowerCase"
  | FvNull => readOf "null" "toLowerCase"
  | _ => Throw (TypeError "filterValue.toLowerCase is not a function")
  end.

(* ------------------------------------------------------------------ *)
(** ** Number matchers *)

Definition matchNumber (value : float) (filterValue : FilterValue) (operator : string)
  : result bool :=
  if PrimFloat.is_nan value then Ret false
  else if Str.eqb operator "numberBetween" then
    mn ← get_min filterValue;
    let min := boundOr PrimFloat.neg_infinity mn in
    mx ← get_max filterValue;
    let max := boundOr PrimFloat.infinity mx in
    Ret (num_ge value min && num_le value max)
  else
    let fv := FilterValue_ToNumber filterValue in
    if PrimFloat.is_nan fv then Ret false
    else if Str.eqb operator "eq" then Ret (PrimFloat.eqb value fv)
    else if Str.eqb operator "neq" then Ret (negb (PrimFloat.eqb value fv))
    else if Str.eqb operator "gt" then Ret (num_gt value fv)
    else if Str.eqb operator "lt" then Ret (num_lt value fv)
    else if Str.eqb operator "gte" then Ret (num_ge value fv)
    else if Str.eqb operator "lte" then Ret (num_le value fv)
    else Ret false.

(* ------------------------------------------------------------------ *)
(** ** Date matchers *)

Definition day : option string := Some "day".

Definition matchDate (value : string) (filterValue : FilterValue) (operator : string)
  : result bool :=
  let date := dayjs H value in
  if negb (isValid H date) then Ret false
  else if Str.eqb operator "between" then
    s ← get_start filterValue;
    let start := dayjs H <$> truthyString s in
    e ← get_end filterValue;
    let end_ := dayjs H <$> truthyString e in
    match start, end_ with
    | Some start, Some end_ =>
        Ret ((isAfter H date start None || isSame H date start day) &&
             (isBefore H date end_ None || isSame H date end_ day))
    | Some start, None => Ret (isAfter H date start None || isSame H date start day)
    | None, Some end_ => Ret (isBefore H date end_ None || isSame H date end_ day)
    | None, None => Ret true
    end
  else if Str.eqb operator "before" then
    e ← get_end filterValue;
    end_ ← match truthyString e with
           | Some e' => Ret (Some (dayjs H e'))
           | None => s ← get_start filterValue; Ret (dayjs H <$> truthyString s)
           end;
    Ret (match end_ with
         | Some end_ => isBefore H date end_ day
         | None => true
         end)
  else if Str.eqb operator "after" then
    s ← get_start filterValue;
    start ← match truthyString s with
            | Some s' => Ret (Some (dayjs H s'))
            | None => e ← get_end filterValue; Ret (dayjs H <$> truthyString e)
            end;
    Ret (match start with
         | Some start => isAfter H date start day
         | None => true
         end)
  else if Str.eqb operator "last7days" then
    Ret (isAfter H date (subtract H (dayjs_now H) 7 "day") None)
  else if Str.eqb operator "last30days" then
    Ret (isAfter H date (subtract H (dayjs_now H) 30 "day") None)
  else if Str.eqb operator "last90days" then
    Ret (isAfter H date (subtract H (dayjs_now H) 90 "day") None)
  else Ret false.

(* ------------------------------------------------------------------ *)
(** ** Amount / currency range matcher *)

Definition matchAmountRange (value : float) (range : FilterValue) : result bool :=
  if PrimFloat.is_nan value then Ret false
  else
    mn ← get_min range;
    let min := boundOr PrimFloat.neg_infinity mn in
    mx ← get_max range;
    let max := boundOr PrimFloat.infinity mx in
    Ret (num_ge value min && num_le value max).

(* ------------------------------------------------------------------ *)
(** ** Select matchers *)

(** [value === filterValue] for a string [value] *)
Definition strictEqualsString (value : string) (filterValue : FilterValue) : bool :=
  match filterValue with
  | FvStr s => Str.eqb value s
  | _ => false
  end.

Definition matchSingleSelect (value : string) (filterValue : FilterValue) (operator : string)
  : result bool :=
  if Str.eqb operator "is" then Ret (strictEqualsString value filterValue)
  else if Str.eqb operator "isNot" then Ret (negb (strictEqualsString value filterValue))
  else Ret false.

(** [filterValues.some(f)] and [filterValues.every(f)]: only an array has
    these methods. *)
Definition call_some (filterValues : FilterValue) (f : string → bool) : result bool :=
  match filterValues with
  | FvList l => Ret (existsb f l)
  | FvUndefined => readOf "undefined" "some"
  | FvNull => readOf "null" "some"
  | _ => Throw (TypeError "filterValues.some is not a function")
  end.

Definition call_every (filterValues : FilterValue) (f : string → bool) : result bool :=
  match filterValues with
  | FvList l => Ret (forallb f l)
  | FvUndefined => readOf "undefined" "every"
  | FvNull => readOf "null" "every"
  | _ => Throw (TypeError "filterValues.every is not a function")
  end.

Definition matchMultiSelect (values : JsValue) (filterValues : FilterValue) (operator : string)
  : result bool :=
  match arrayElements values with
  | Some elems =>
      len ← get_length filterValues;
      if bool_decide (len = Some 0%nat) then Ret true
      else if Str.eqb operator "in" then
        call_some filterValues (λ fv, arrayIncludes elems fv)
      else if Str.eqb operator "notIn" then
        b ← call_some filterValues (λ fv, arrayIncludes elems fv);
        Ret (negb b)
      else if Str.eqb operator "all" then
        call_every filterValues (λ fv, arrayIncludes elems fv)
      else Ret false
  | None => Ret false
  end.

(* ------------------------------------------------------------------ *)
(** ** Boolean matcher *)

Definition matchBoolean (value : JsValue) (filterValue : FilterValue) : result bool :=
  Ret (match filterValue with
       | FvBool b => Bool.eqb (ToBoolean value) b
       | _ => false
       end).

(* ------------------------------------------------------------------ *)
(** ** Validation *)

Definition isValidFilter (condition : FilterCondition) : bool :=
  if Str.eqb (fieldKey condition) "" || Str.eqb (operator condition) "" then false
  else if existsb (Str.eqb (operator condition)) ["last7days"; "last30days"; "last90days"]
  then true
  else
    match value condition with
    | FvUndefined | FvNull => false
    | FvStr s => negb (Str.eqb s "")
    | FvList l => negb (bool_decide (length l = 0%nat))
    | FvDateRange start end_ => negb (Str.eqb start "") || negb (Str.eqb end_ "")
    | FvNumberRange min max =>
        negb (isEmptyStr min) || negb (isEmptyStr max)
    | FvNum _ | FvBool _ => true
    end.

(* ------------------------------------------------------------------ *)
(** ** Condition dispatcher *)

Definition matchCondition (record : Record) (condition : FilterCondition)
  (fieldDef : FieldDefinition) : result bool :=
  let rawValue := getNestedValue record (fieldKey condition) in
  let t := type fieldDef in
  if Str.eqb t FieldType.Text then
    text ← ToString (nullish rawValue (JStr ""));
    matchText text (value condition) (operator condition)
  else if Str.eqb t FieldType.Number then
    number ← ToNumber rawValue;
    matchNumber number (value condition) (operator condition)
  else if Str.eqb t FieldType.Date then
    text ← ToString (nullish rawValue (JStr ""));
    matchDate text (value condition) (operator condition)
  else if Str.eqb t FieldType.Amount then
    number ← ToNumber rawValue;
    matchAmountRange number (value condition)
  else if Str.eqb t FieldType.SingleSelect then
    text ← ToString (nullish rawValue (JStr ""));
    matchSingleSelect text (value condition) (operator condition)
  else if Str.eqb t FieldType.MultiSelect then
    matchMultiSelect (if isArray rawValue then rawValue else JArr [])
      (value condition) (operator condition)
  else if Str.eqb t FieldType.Boolean then
    matchBoolean rawValue (value condition)
  else Ret true.

(* ------------------------------------------------------------------ *)
(** ** Main entry point *)

(** [new Map(entries)]: the entries are set in order, a later one replaces
    an earlier one with the same key. *)
Definition Map_new (entries : list (string * FieldDefinition)) : gmap string FieldDefinition :=
  fold_left (λ m e, <[e.1 := e.2]> m) entries ∅.

(** Calling [push] on a value that has no such method. *)
Definition pushError : JsError := TypeError "acc[key].push is not a function".

(** The reducer that groups conditions by field.  The accumulator is a
    plain object, here its own properties in creation order; [acc[key]] also
    finds what the object inherits from [Object.prototype], a function or
    the prototype itself: a truthy value without a [push] method.
    [if (!acc[key]) acc[key] = []; acc[key].push(condition); return acc] *)
Definition groupByField_step (acc : list (string * list FilterCondition))
  (condition : FilterCondition) : result (list (string * list FilterCondition)) :=
  let key := fieldKey condition in
  let acc :=
    if bool_decide (is_Some (assoc key acc)) || inheritedName key then acc
    else acc ++ [(key, [])] in
  match assoc key acc with
  | Some _ =>
      Ret (map (λ p, if Str.eqb p.1 key then (p.1, p.2 ++ [condition]) else p) acc)
  | None => Throw pushError
  end.

(** The accumulator has no own property with an inherited name. *)
Definition cleanKeys (acc : list (string * list FilterCondition)) : Prop :=
  ∀ k, inheritedName k = true → assoc k acc = None.

Definition groupByField (validConditions : list FilterCondition)
  : result (list (string * list FilterCondition)) :=
  reduceA groupByField_step validConditions [].

Fixpoint insertByIndex {A} (i : N) (p : A) (l : list (N * A)) : list (N * A) :=
  match l with
  | [] => [(i, p)]
  | (j, q) :: l' =>
      if (i <=? j)%N then (i, p) :: l else (j, q) :: insertByIndex i p l'
  end.

Definition indexedEntries {A} (props : list (string * A)) : list (N * (string * A)) :=
  foldr (λ p acc, match Str.arrayIndex p.1 with
                  | Some i => insertByIndex i p acc
                  | None => acc
                  end) [] props.

Definition isArrayIndex (k : string) : bool :=
  match Str.arrayIndex k with
  | Some _ => true
  | None => false
  end.

(** [Object.entries(o)]: the array-index keys first, in ascending numeric
    order, then the other keys in creation order. *)
Definition Object_entries {A} (props : list (string * A)) : list (string * A) :=
  map snd (indexedEntries props) ++ List.filter (λ p, negb (isArrayIndex p.1)) props.

(** Index keys in ascending order. *)
Fixpoint ascending {A} (l : list (N * A)) : Prop :=
  match l with
  | [] => True
  | (i, _) :: l' => Forall (λ q, (i <= q.1)%N) l' ∧ ascending l'
  end.

(** The callback of [Object.entries(groupedByField).every(...)]. *)
Definition groupSatisfied (fieldMap : gmap string FieldDefinition) (record : Record)
  (entry : string * list FilterCondition) : result bool :=
  match fieldMap !! entry.1 with
  | None => Ret true
  | Some fieldDef => some (λ condition, matchCondition record condition fieldDef) entry.2
  end.

Definition applyFilters (data : list Record) (conditions : list FilterCondition)
  (fieldDefinitions : list FieldDefinition) : result (list Record) :=
  let validConditions := List.filter isValidFilter conditions in
  if (length validConditions =? 0)%nat then Ret data
  else
    let fieldMap := Map_new (map (λ fd, (key fd, fd)) fieldDefinitions) in
    groupedByField ← groupByField validConditions;
    filterA (λ record, every (groupSatisfied fieldMap record) (Object_entries groupedByField))
      data.

(* ------------------------------------------------------------------ *)
(** ** The filter pass in the words of the specification *)

(** The groups: the conditions partitioned by field key, the groups and the
    conditions of each group in order of insertion. *)
Definition groups_step (acc : list (string * list FilterCondition))
  (condition : FilterCondition) : list (string * list FilterCondition) :=
  let key := fieldKey condition in
  let acc :=
    match assoc key acc with
    | Some _ => acc
    | None => acc ++ [(key, [])]
    end in
  map (λ p, if Str.eqb p.1 key then (p.1, p.2 ++ [condition]) else p) acc.

Definition groups (conditions : list FilterCondition)
  : list (string * list FilterCondition) :=
  fold_left groups_step conditions [].

(** The condition is evaluated by the matcher of its field's type and
    matches. *)
Definition conditionMatches (record : Record) (fieldDef : FieldDefinition)
  (condition : FilterCondition) : bool :=
  decided (matchCondition record condition fieldDef).

(** The group of a field key: the conditions on that key. *)
Definition groupOf (conditions : list FilterCondition) (k : string) : list FilterCondition :=
  List.filter (λ c, Str.eqb (fieldKey c) k) conditions.

(** The definition of a field key: the last one of the schema with that
    key. *)
Definition lookupField (fieldDefinitions : list FieldDefinition) (k : string)
  : option FieldDefinition :=
  last (List.filter (λ fd, Str.eqb (key fd) k) fieldDefinitions).

(** A group is satisfied when one of its conditions matches, or when its
    field has no definition. *)
Definition groupHolds (fieldDefinitions : list FieldDefinition)
  (conditions : list FilterCondition) (record : Record) (k : string) : bool :=
  match lookupField fieldDefinitions k with
  | None => true
  | Some fieldDef => existsb (conditionMatches record fieldDef) (groupOf conditions k)
  end.

(** A record is kept iff every group holds. *)
Definition keepsRecord (fieldDefinitions : list FieldDefinition)
  (conditions : list FilterCondition) (record : Record) : bool :=
  forallb (λ c, groupHolds fieldDefinitions conditions record (fieldKey c)) conditions.

(** The field key has a definition in the schema. *)
Definition hasDefinition (fieldDefinitions : list FieldDefinition) (k : string) : bool :=
  existsb (λ fd, Str.eqb (key fd) k) fieldDefinitions.

(** The condition value has a shape the matchers of the field type can
    read: a string for Text, a list for MultiSelect, and anything but
    [undefined] and [null] for the other types. *)
Definition valueFits (t : string) (v : FilterValue) : bool :=
  if Str.eqb t FieldType.Text then
    match v with FvStr _ => true | _ => false end
  else if Str.eqb t FieldType.MultiSelect then
    match v with FvList _ => true | _ => false end
  else
    match v with FvUndefined | FvNull => false | _ => true end.

(** The valid conditions are on field keys that a plain object does not
    inherit and carry values of the shape their field type reads. *)
Definition wellFormed (fieldDefinitions : list FieldDefinition)
  (conditions : list FilterCondition) : Prop :=
  ∀ c, In c conditions → isValidFilter c = true →
    inheritedName (fieldKey c) = false
    ∧ ∀ fd, lookupField fieldDefinitions (fieldKey c) = Some fd →
        valueFits (type fd) (value c) = true.

(** The same condition under another operator. *)
Definition withOperator (op : string) (c : FilterCondition) : FilterCondition :=
  {| id := id c; fieldKey := fieldKey c; operator := op; value := value c |}.

(** The conversion of the value read from the record that the dispatcher
    makes for a field type before it calls the matcher:
    [String(rawValue ?? "")] for Text, Date and SingleSelect,
    [Number(rawValue)] for Number and Amount, none for the other types. *)
Definition convert (t : string) (rawValue : JsValue) : result unit :=
  if Str.eqb t FieldType.Text || Str.eqb t FieldType.Date
     || Str.eqb t FieldType.SingleSelect
  then _ ← ToString (nullish rawValue (JStr "")); Ret tt
  else if Str.eqb t FieldType.Number || Str.eqb t FieldType.Amount
  then _ ← ToNumber rawValue; Ret tt
  else Ret tt.


(* ------------------------------------------------------------------ *)
(** ** The evaluation of a condition in the words of the specification *)

(** Value Coercion.  The path is a sequence of segments separated by
    dots.  The record is traversed segment by segment; when the current value
    is not a mapping, or does not have the next segment as a key, the result
    is absent at once.  A mapping is an object or an array, and its keys are
    the properties it has, its own and the inherited ones. *)
Definition isMapping (v : JsValue) : bool :=
  match v with
  | JData (JObj _ | JArr _) | JIntrinsic (ObjectPrototype | ArrayPrototype) => true
  | _ => false
  end.

Fixpoint valueAt (v : JsValue) (segments : list string) : JsValue :=
  match segments with
  | [] => v
  | segment :: rest =>
      if isMapping v then
        match lookupProperty v segment with
        | Some next => valueAt next rest
        | None => JUndefined
        end
      else JUndefined
  end.

Definition readPath (record : Record) (path : string) : JsValue :=
  valueAt (JObj record) (Str.split "." path).

(** The field types, a closed enumeration, and the type that a string
    names. *)
Inductive FieldKind :=
| KText | KNumber | KDate | KAmount | KSingleSelect | KMultiSelect | KBoolean.

Definition kindOf (t : string) : option FieldKind :=
  assoc t [ (FieldType.Text, KText); (FieldType.Number, KNumber); (FieldType.Date, KDate);
            (FieldType.Amount, KAmount); (FieldType.SingleSelect, KSingleSelect);
            (FieldType.MultiSelect, KMultiSelect); (FieldType.Boolean, KBoolean) ].

(** A condition is evaluated by the matcher of the field's type on the
    value read at the path: as a string for Text, Date and SingleSelect, an
    absent value being the empty string; as a number for Number and Amount;
    as a list for MultiSelect, a value that is no list being the empty list;
    as it is for Boolean. *)
Definition evaluate (record : Record) (fieldDef : FieldDefinition)
  (condition : FilterCondition) : result bool :=
  let v := readPath record (fieldKey condition) in
  match kindOf (type fieldDef) with
  | Some KText =>
      text ← ToString (nullish v (JStr ""));
      matchText text (value condition) (operator condition)
  | Some KNumber =>
      number ← ToNumber v;
      matchNumber number (value condition) (operator condition)
  | Some KDate =>
      text ← ToString (nullish v (JStr ""));
      matchDate text (value condition) (operator condition)
  | Some KAmount =>
      number ← ToNumber v;
      matchAmountRange number (value condition)
  | Some KSingleSelect =>
      text ← ToString (nullish v (JStr ""));
      matchSingleSelect text (value condition) (operator condition)
  | Some KMultiSelect =>
      matchMultiSelect (match arrayElements v with Some _ => v | None => JArr [] end)
        (value condition) (operator condition)
  | Some KBoolean => matchBoolean v (value condition)
  | None => Ret true
  end.


End Engine.

(* ------------------------------------------------------------------ *)
(** ** The schema of the application ([src/config/filterFields.ts]) *)

Module Config.

Definition option_ (name : string) : SelectOption :=
  {| so_label := name; so_value := name |}.

Definition DEPARTMENT_OPTIONS : list SelectOption :=
  map option_ ["Engineering";
     "Marketing";
     "Sales";
     "Human Resources";
     "Finance";
     "Design";
     "Product";
     "Operations"].

Definition ROLE_OPTIONS : list SelectOption :=
  map option_ ["Senior Developer";
     "Junior Developer";
     "Lead Developer";
     "Marketing Manager";
     "Sales Representative";
     "HR Specialist";
     "Financial Analyst";
     "UX Designer";
     "Product Manager";
     "DevOps Engineer";
     "Data Scientist";
     "QA Engineer";
     "Operations Manager";
     "Content Strategist";
     "Account Executive"].

Definition SKILL_OPTIONS : list SelectOption :=
  map option_ ["React";
     "TypeScript";
     "Node.js";
     "GraphQL";
     "Python";
     "Java";
     "AWS";
     "Docker";
     "Kubernetes";
     "SQL";
     "MongoDB";
     "Figma";
     "Photoshop";
     "Salesforce";
     "Excel";
     "Tableau";
     "Go";
     "Rust";
     "Vue.js";
     "Angular"].

Definition COUNTRY_OPTIONS : list SelectOption :=
  map option_ ["USA";
     "Canada";
     "UK";
     "Germany";
     "India";
     "Australia";
     "Japan"].

Definition FILTER_FIELDS : list FieldDefinition :=
  [ {| key := "name"; label := "Name"; type := FieldType.Text;
       options := None; nested := None |};
    {| key := "email"; label := "Email"; type := FieldType.Text;
       options := None; nested := None |};
    {| key := "department"; label := "Department"; type := FieldType.SingleSelect;
       options := Some DEPARTMENT_OPTIONS; nested := None |};
    {| key := "role"; label := "Role"; type := FieldType.SingleSelect;
       options := Some ROLE_OPTIONS; nested := None |};
    {| key := "salary"; label := "Salary"; type := FieldType.Amount;
       options := None; nested := None |};
    {| key := "joinDate"; label := "Join Date"; type := FieldType.Date;
       options := None; nested := None |};
    {| key := "isActive"; label := "Is Active"; type := FieldType.Boolean;
       options := None; nested := None |};
    {| key := "skills"; label := "Skills"; type := FieldType.MultiSelect;
       options := Some SKILL_OPTIONS; nested := None |};
    {| key := "address.city"; label := "City"; type := FieldType.Text;
       options := None; nested := Some true |};
    {| key := "address.state"; label := "State"; type := FieldType.Text;
       options := None; nested := Some true |};
    {| key := "address.country"; label := "Country"; type := FieldType.SingleSelect;
       options := Some COUNTRY_OPTIONS; nested := Some true |};
    {| key := "projects"; label := "Projects"; type := FieldType.Number;
       options := None; nested := None |};
    {| key := "lastReview"; label := "Last Review"; type := FieldType.Date;
       options := None; nested := None |};
    {| key := "performanceRating"; label := "Performance Rating"; type := FieldType.Number;
       options := None; nested := None |} ].

End Config.

(* ------------------------------------------------------------------ *)
(** ** Default value factory ([src/engine/filterEngine.ts]) *)

(** A [switch] without a default: another type falls through, and the
    function returns [undefined]. *)
Definition getDefaultValue (type : string) : FilterValue :=
  if Str.eqb type FieldType.Text then FvStr ""
  else if Str.eqb type FieldType.Number then FvNum PrimFloat.zero
  else if Str.eqb type FieldType.Date then FvDateRange "" ""
  else if Str.eqb type FieldType.Amount then FvNumberRange EmptyStr EmptyStr
  else if Str.eqb type FieldType.SingleSelect then FvStr ""
  else if Str.eqb type FieldType.MultiSelect then FvList []
  else if Str.eqb type FieldType.Boolean then FvBool true
  else FvUndefined.

Definition getDefaultValueForOperator (type operator : string) : FilterValue :=
  if existsb (Str.eqb operator) ["last7days"; "last30days"; "last90days"]
  then FvDateRange "" ""
  else if Str.eqb operator "numberBetween" then FvNumberRange EmptyStr EmptyStr
  else getDefaultValue type.

(* ------------------------------------------------------------------ *)
(** ** The list of conditions ([src/hooks/useFilters.ts])

    The state the hook keeps, and the functions it passes to [setConditions].
    Writing the list to the local storage ([persist]) is not modelled. *)

Module UseFilters.

(** [Partial<FilterCondition>]: each property is set or left out. *)
Record Patch := {
  p_id : option string;
  p_fieldKey : option string;
  p_operator : option string;
  p_value : option FilterValue
}.

(** [{ ...c, ...patch }] *)
Definition spread (c : FilterCondition) (patch : Patch) : FilterCondition :=
  {| id := default (id c) (p_id patch);
     fieldKey := default (fieldKey c) (p_fieldKey patch);
     operator := default (operator c) (p_operator patch);
     value := default (value c) (p_value patch) |}.

(** The row that [addFilter] appends, under the identifier that
    [generateId] returned. *)
Definition emptyCondition (newId : string) : FilterCondition :=
  {| id := newId; fieldKey := ""; operator := ""; value := FvStr "" |}.

Definition addFilter (newId : string) (prev : list FilterCondition) : list FilterCondition :=
  prev ++ [emptyCondition newId].

Definition removeFilter (i : string) (prev : list FilterCondition) : list FilterCondition :=
  List.filter (λ c, negb (Str.eqb (id c) i)) prev.

Definition updateFilter (i : string) (patch : Patch) (prev : list FilterCondition)
  : list FilterCondition :=
  map (λ c, if Str.eqb (id c) i then spread c patch else c) prev.

Definition clearFilters (prev : list FilterCondition) : list FilterCondition := [].

End UseFilters.

(* ------------------------------------------------------------------ *)
(** ** The handlers of a condition row ([src/components/filters/FilterRow.tsx]) *)

Module FilterRow.

(** [fields.find((f) => f.key === k)] *)
Definition findField (fields : list FieldDefinition) (k : string) : option FieldDefinition :=
  List.find (λ f, Str.eqb (key f) k) fields.

(** What a handler does: nothing, or a call [onUpdate(id, patch)].  The
    table [OPERATORS_BY_TYPE] is read at a field type; for a type that is
    not one of [FieldType], which the type of a field definition rules out,
    the handler of a field change is not modelled. *)
Inductive Handled :=
| Ignored
| TypeNotInTable
| OnUpdate (i : string) (patch : UseFilters.Patch).

Definition handleFieldChange (fields : list FieldDefinition) (condition : FilterCondition)
  (fieldKey : string) : Handled :=
  match findField fields fieldKey with
  | None => Ignored
  | Some field =>
      match OPERATORS_BY_TYPE (type field) with
      | defaultOp :: _ =>
          OnUpdate (id condition)
            {| UseFilters.p_id := None;
               UseFilters.p_fieldKey := Some fieldKey;
               UseFilters.p_operator := Some defaultOp;
               UseFilters.p_value := Some (getDefaultValue (type field)) |}
      | [] => TypeNotInTable
      end
  end.

Definition handleOperatorChange (fields : list FieldDefinition) (condition : FilterCondition)
  (operator : string) : Handled :=
  match findField fields (fieldKey condition) with
  | None => Ignored
  | Some field =>
      OnUpdate (id condition)
        {| UseFilters.p_id := None;
           UseFilters.p_fieldKey := None;
           UseFilters.p_operator := Some operator;
           UseFilters.p_value := Some (getDefaultValueForOperator (type field) operator) |}
  end.

Definition handleValueChange (condition : FilterCondition) (value : FilterValue) : Handled :=
  OnUpdate (id condition)
    {| UseFilters.p_id := None;
       UseFilters.p_fieldKey := None;
       UseFilters.p_operator := None;
       UseFilters.p_value := Some value |}.

(** The list of conditions after the handler, [onUpdate] being the
    [updateFilter] of the hook. *)
Definition after (h : Handled) (conditions : list FilterCondition) : list FilterCondition :=
  match h with
  | OnUpdate i patch => UseFilters.updateFilter i patch conditions
  | Ignored | TypeNotInTable => conditions
  end.

End FilterRow.

(* ------------------------------------------------------------------ *)
(** ** The connector between two rows ([src/components/filters/FilterBuilder.tsx])

    [conditions[index - 1]?.fieldKey === condition.fieldKey &&
     condition.fieldKey !== "" ? "OR" : "AND"], for [index > 0]. *)

Definition connector (previous condition : FilterCondition) : string :=
  if Str.eqb (fieldKey previous) (fieldKey condition) && negb (Str.eqb (fieldKey condition) "")
  then "OR" else "AND".

(* ------------------------------------------------------------------ *)
(** ** The count of active filters ([src/App.tsx])

    [conditions.filter((c) => c.fieldKey && c.operator && c.value !== "" &&
     c.value !== undefined).length] *)

Definition isActive (c : FilterCondition) : bool :=
  negb (Str.eqb (fieldKey c) "")
  && negb (Str.eqb (operator c) "")
  && match value c with
     | FvStr s => negb (Str.eqb s "")
     | FvUndefined => false
     | _ => true
     end.

Definition activeFilterCount (conditions : list FilterCondition) : nat :=
  length (List.filter isActive conditions).

(* ------------------------------------------------------------------ *)
(** ** The picker of a single date ([SingleDateInput]) *)

Module SingleDateInput.

(** [operator === "before" ? (value.end || value.start)
                           : (value.start || value.end)]: of two
    properties, the first when it is truthy, else the second. *)
Definition dateValue (value : FilterValue) (operator : string) : result (option string) :=
  if Str.eqb operator "before" then
    e ← get_end value;
    match truthyString e with
    | Some s => Ret (Some s)
    | None => get_start value
    end
  else
    s ← get_start value;
    match truthyString s with
    | Some s' => Ret (Some s')
    | None => get_end value
    end.

(** The value given to [onChange], [formatted] being
    [date ? date.format("YYYY-MM-DD") : ""]. *)
Definition onChange (operator formatted : string) : FilterValue :=
  if Str.eqb operator "before" then FvDateRange "" formatted
  else FvDateRange formatted "".

End SingleDateInput.

(* ------------------------------------------------------------------ *)
(** ** The rows of the CSV export ([exportToCSV])

    A data row of the file: the cells of a record, each one quoted when it
    holds a comma or a double quote, joined by commas.  The flattening of a
    record into cells and the download are not modelled. *)

Module CsvExport.

(** The double quote. *)
Definition quote : ascii := "034"%char.

(** [cell.replace] with the global pattern of one double quote and the
    replacement of two: every double quote is doubled. *)
Fixpoint doubleQuotes (cell : string) : string :=
  match cell with
  | EmptyString => EmptyString
  | String c cell' =>
      if Ascii.eqb c quote then String quote (String quote (doubleQuotes cell'))
      else String c (doubleQuotes cell')
  end.

(** A cell that includes a comma or a double quote is put between double
    quotes, its own double quotes doubled; another cell is left as it is. *)
Definition escapeCell (cell : string) : string :=
  if Str.includes cell "," || Str.includes cell (String quote EmptyString)
  then String quote (doubleQuotes cell +:+ String quote EmptyString)
  else cell.

(** The cells of a row, escaped and joined by commas; and the header
    line, whose cells are joined without being escaped. *)
Definition csvRow (cells : list string) : string := Str.join "," (map escapeCell cells).
Definition csvHeader (headers : list string) : string := Str.join "," headers.

End CsvExport.

(** A reader of the first field of a row, as a reader of CSV files does it:
    a field that starts with a double quote runs to the closing quote, a
    doubled quote standing for one; another field runs to the next comma.
    It gives the field and what follows its comma.  It serves to show that a
    row can be read in one way only. *)
Module CsvReader.

Fixpoint readPlain (s : string) : string * option string :=
  match s with
  | EmptyString => (EmptyString, None)
  | String c s' =>
      if Ascii.eqb c "," then (EmptyString, Some s')
      else let (field, rest) := readPlain s' in (String c field, rest)
  end.

Fixpoint readQuoted (s : string) : string * option string :=
  match s with
  | EmptyString => (EmptyString, None)
  | String c s' =>
      if Ascii.eqb c CsvExport.quote then
        match s' with
        | String c' s'' =>
            if Ascii.eqb c' CsvExport.quote then
              let (field, rest) := readQuoted s'' in (String CsvExport.quote field, rest)
            else (EmptyString, if Ascii.eqb c' "," then Some s'' else None)
        | EmptyString => (EmptyString, None)
        end
      else let (field, rest) := readQuoted s' in (String c field, rest)
  end.

Definition readField (s : string) : string * option string :=
  match s with
  | String c s' => if Ascii.eqb c CsvExport.quote then readQuoted s' else readPlain s
  | EmptyString => readPlain s
  end.

End CsvReader.

(* ------------------------------------------------------------------ *)
(** ** A small host, to run the engine on examples

    It covers what the examples use: decimal integers as numbers, a pattern
    language of literal texts in which an unbalanced parenthesis is the one
    syntax error, and instants that are whole days written as a day number. *)

Module SampleHost.

Definition number_of_Z (z : Z) : float :=
  if (z <? 0)%Z then PrimFloat.opp (PrimFloat.of_uint63 (Uint63.of_Z (- z)))
  else PrimFloat.of_uint63 (Uint63.of_Z z).

Definition Z_of_digits (s : string) : option Z :=
  match s with
  | EmptyString => None
  | String "-" s' =>
      if Str.eqb s' "" then None else (λ n, - Z.of_N n) <$> Str.digits s' 0
  | _ => Z.of_N <$> Str.digits s 0
  end.

Definition parseNumber (s : string) : float :=
  if Str.eqb s "" then PrimFloat.zero
  else match Z_of_digits s with
       | Some z => number_of_Z z
       | None => PrimFloat.nan
       end.

Definition Z_of_number (n : float) : option Z :=
  match Prim2SF n with
  | S754_zero _ => Some 0
  | S754_finite s m e =>
      let sign := if s then (-1) else 1 in
      if (0 <=? e) then Some (sign * Z.pos m * 2 ^ e)
      else if (Z.pos m mod 2 ^ (- e) =? 0) then Some (sign * (Z.pos m / 2 ^ (- e)))
      else None
  | _ => None
  end.

Definition printNumber (n : float) : string :=
  match Z_of_number n with
  | Some z => DecimalString.NilZero.string_of_int (Z.to_int z)
  | None =>
      if PrimFloat.eqb n PrimFloat.infinity then "Infinity"
      else if PrimFloat.eqb n PrimFloat.neg_infinity then "-Infinity"
      else "NaN"
  end.

Fixpoint balanced (s : string) (depth : nat) : bool :=
  match s with
  | EmptyString => bool_decide (depth = 0%nat)
  | String "(" s' => balanced s' (S depth)
  | String ")" s' =>
      match depth with
      | O => false
      | S d => balanced s' d
      end
  | String _ s' => balanced s' depth
  end.

Definition compile (pattern flags : string) : result string :=
  if balanced pattern 0 then
    Ret (if Str.includes flags "i" then Str.toLowerCase pattern else pattern)
  else Throw (SyntaxError "Invalid regular expression").

Definition test (re s : string) : bool := Str.includes (Str.toLowerCase s) re.

Definition parseDay (s : string) : option Z :=
  if Str.eqb s "" then None else Z.of_N <$> Str.digits s 0.

Definition later (a b : option Z) (_ : option string) : bool :=
  match a, b with
  | Some x, Some y => (y <? x)
  | _, _ => false
  end.

Definition sameDay (a b : option Z) (_ : option string) : bool :=
  match a, b with
  | Some x, Some y => (x =? y)
  | _, _ => false
  end.

(** The methods of [Array.prototype] in ECMAScript 2023. *)
Definition arrayMethods : list string :=
  [ "at"; "concat"; "constructor"; "copyWithin"; "entries"; "every"; "fill"; "filter";
    "find"; "findIndex"; "findLast"; "findLastIndex"; "flat"; "flatMap"; "forEach";
    "includes"; "indexOf"; "join"; "keys"; "lastIndexOf"; "map"; "pop"; "push";
    "reduce"; "reduceRight"; "reverse"; "shift"; "slice"; "some"; "sort"; "splice";
    "toLocaleString"; "toReversed"; "toSorted"; "toSpliced"; "toString"; "unshift";
    "values"; "with" ].

Definition host : Host := {|
  StringToNumber := parseNumber;
  NumberToString := printNumber;
  ArrayPrototype_has := λ k, existsb (Str.eqb k) arrayMethods;
  FunctionToString := λ _ name, "function " +:+ name +:+ "() { [native code] }";
  RegExp := string;
  RegExp_new := compile;
  RegExp_test := test;
  Dayjs := option Z;
  dayjs := parseDay;
  dayjs_now := Some 20000;
  isValid := λ d, bool_decide (is_Some d);
  subtract := λ d n _, (λ x, x - n) <$> d;
  isAfter := later;
  isBefore := λ a b u, later b a u;
  isSame := sameDay
|}.

End SampleHost.

(* ------------------------------------------------------------------ *)
(** ** The scenarios of the specification, on the sample host *)

Module Scenario.

Definition num (z : Z) : JsData := JNum (SampleHost.number_of_Z z).

Definition field (k t : string) : FieldDefinition :=
  {| key := k; label := k; type := t; options := None; nested := None |}.

Definition cond (k op : string) (v : FilterValue) : FilterCondition :=
  {| id := "c"; fieldKey := k; operator := op; value := v |}.

Definition run := applyFilters SampleHost.host.

Definition schema : list FieldDefinition :=
  [ field "name" FieldType.Text;
    field "department" FieldType.SingleSelect;
    field "salary" FieldType.Amount;
    field "projects" FieldType.Number;
    field "joinDate" FieldType.Date;
    field "isActive" FieldType.Boolean;
    field "skills" FieldType.MultiSelect;
    field "address.city" FieldType.Text ].

Definition alice : Record :=
  [ ("name", JStr "Alice"); ("department", JStr "Engineering"); ("salary", num 90000);
    ("projects", num 3); ("joinDate", JStr "19990"); ("isActive", JBool true);
    ("skills", JArr [JStr "React"; JStr "SQL"]);
    ("address", JObj [("city", JStr "Paris")]) ].

Definition bob : Record :=
  [ ("name", JStr "Bob"); ("department", JStr "Sales"); ("salary", num 60000);
    ("projects", num 7); ("joinDate", JStr "15000"); ("isActive", JBool false);
    ("skills", JArr [JStr "Go"]);
    ("address", JObj [("city", JStr "Lyon")]) ].

Definition carol : Record :=
  [ ("name", JStr "Carol"); ("department", JStr "Finance"); ("salary", num 40000);
    ("projects", num 1); ("joinDate", JStr "19998"); ("isActive", JBool true);
    ("skills", JStr "React") ].

Definition staff : list Record := [alice; bob; carol].

(** A record whose name and whose number of projects are objects with an
    own property [toString], as JSON data can carry. *)
Definition dave : Record :=
  [ ("name", JObj [("toString", num 1)]); ("department", JStr "Sales");
    ("projects", JObj [("toString", num 1)]) ].

(** Conditions a user has not finished composing. *)
Definition incomplete : list FilterCondition :=
  [ cond "" "contains" (FvStr "a");
    cond "name" "" (FvStr "a");
    cond "name" "contains" (FvStr "");
    cond "skills" "in" (FvList []);
    cond "salary" "between" (FvNumberRange EmptyStr EmptyStr) ].

Definition inEngineering := cond "department" "is" (FvStr "Engineering").
Definition inSales := cond "department" "is" (FvStr "Sales").
Definition active := cond "isActive" "is" (FvBool true).
Definition unset := cond "" "is" (FvBool false).
Definition ghost := cond "ghost" "is" (FvStr "x").
Definition ghostConstructor := cond "constructor" "is" (FvStr "x").
Definition nameStartsWithB := cond "name" "startsWith" (FvStr "b").

(** A Boolean field that no sample record has. *)
Definition remote := field "remote" FieldType.Boolean.
Definition isRemote (b : bool) := cond "remote" "is" (FvBool b).

Definition skills := field "skills" FieldType.MultiSelect.
Definition isActive := field "isActive" FieldType.Boolean.
Definition name := field "name" FieldType.Text.

Definition nameIs := cond "name" "is" (FvStr "Alice").
Definition withoutGo := cond "skills" "notIn" (FvList ["Go"]).

End Scenario.

(* ------------------------------------------------------------------ *)
(** ** A session of the editor, on the sample schema *)

Module Session.

Definition row (i k op : string) (v : FilterValue) : FilterCondition :=
  {| id := i; fieldKey := k; operator := op; value := v |}.

Definition sales := row "filter-1-1000" "department" "is" (FvStr "Sales").
Definition engineering := row "filter-2-1001" "department" "is" (FvStr "Engineering").
Definition active := row "filter-3-1002" "isActive" "is" (FvBool true).

Definition rows : list FilterCondition := [sales; engineering; active].

(** A Date row as a change of field leaves it. *)
Definition freshDate := row "filter-4-1003" "joinDate" "between" (FvDateRange "" "").

(** A schema with two definitions of one key. *)
Definition level (t : string) := Scenario.field "level" t.
Definition twice : list FieldDefinition :=
  level FieldType.Number :: level FieldType.Text :: Scenario.schema.

Definition bonus := Scenario.field "bonus" FieldType.Number.
Definition bonusIsNot := row "filter-5-1004" "bonus" "neq" (FvNum (SampleHost.number_of_Z 5)).

Definition projectsBetween :=
  row "filter-6-1005" "projects" "numberBetween"
    (FvNumberRange (NumVal (SampleHost.number_of_Z 2)) (NumVal (SampleHost.number_of_Z 5))).

End Session.

Example scenario_text_contains :
  Scenario.run Scenario.staff [Scenario.cond "name" "contains" (FvStr "ali")] Scenario.schema
  = Ret [Scenario.alice].
Proof. vm_compute. reflexivity. Qed.

Example scenario_number_between :
  Scenario.run Scenario.staff
    [Scenario.cond "salary" "between"
       (FvNumberRange (NumVal (SampleHost.number_of_Z 50000))
                      (NumVal (SampleHost.number_of_Z 100000)))]
    Scenario.schema
  = Ret [Scenario.alice; Scenario.bob].
Proof. vm_compute. reflexivity. Qed.

Example scenario_projects :
  Scenario.run Scenario.staff
    [Scenario.cond "projects" "gt" (FvNum (SampleHost.number_of_Z 2))] Scenario.schema
  = Ret [Scenario.alice; Scenario.bob]
  ∧ Scenario.run Scenario.staff
      [Scenario.cond "projects" "numberBetween"
         (FvNumberRange (NumVal (SampleHost.number_of_Z 2)) (NumVal (SampleHost.number_of_Z 5)))]
      Scenario.schema
    = Ret [Scenario.alice]
  ∧ Scenario.run Scenario.staff
      [Scenario.cond "projects" "numberBetween"
         (FvNumberRange EmptyStr (NumVal (SampleHost.number_of_Z 3)))]
      Scenario.schema
    = Ret [Scenario.alice; Scenario.carol].
Proof. repeat split; vm_compute; reflexivity. Qed.

Example scenario_multiselect_all :
  Scenario.run Scenario.staff
    [Scenario.cond "skills" "all" (FvList ["React"; "SQL"; "Go"])] Scenario.schema = Ret []
  ∧ Scenario.run Scenario.staff
      [Scenario.cond "skills" "all" (FvList ["React"])] Scenario.schema = Ret [Scenario.alice].
Proof. split; vm_compute; reflexivity. Qed.

Example scenario_invalid_regex :
  Scenario.run Scenario.staff [Scenario.cond "name" "regex" (FvStr "(")] Scenario.schema
  = Ret [].
Proof. vm_compute. reflexivity. Qed.

Example scenario_and_or :
  Scenario.run Scenario.staff
    [Scenario.cond "department" "is" (FvStr "Engineering");
     Scenario.cond "isActive" "is" (FvBool true);
     Scenario.cond "department" "is" (FvStr "Sales")] Scenario.schema
  = Ret [Scenario.alice].
Proof. vm_compute. reflexivity. Qed.

Example scenario_unknown_field :
  Scenario.run Scenario.staff
    [Scenario.cond "ghost" "is" (FvStr "x"); Scenario.cond "name" "startsWith" (FvStr "b")]
    Scenario.schema
  = Ret [Scenario.bob].
Proof. vm_compute. reflexivity. Qed.

Example scenario_nested_and_dates :
  Scenario.run Scenario.staff
    [Scenario.cond "address.city" "endsWith" (FvStr "IS");
     Scenario.cond "joinDate" "last30days" (FvDateRange "" "")] Scenario.schema
  = Ret [Scenario.alice].
Proof. vm_compute. reflexivity. Qed.

Example scenario_entries_order :
  map fst (Object_entries [("b", 1%nat); ("10", 2%nat); ("a", 3%nat); ("2", 4%nat); ("01", 5%nat)])
  = ["2"; "10"; "b"; "a"; "01"].
Proof. vm_compute. reflexivity. Qed.

(* ------------------------------------------------------------------ *)
(** * Properties *)

(** ** Strings *)

Lemma Str_eqb_spec (a b : string) : reflect (a = b) (Str.eqb a b).
Proof. unfold Str.eqb. apply String.eqb_spec. Qed.

Lemma Str_eqb_refl (a : string) : Str.eqb a a = true.
Proof. unfold Str.eqb. apply String.eqb_refl. Qed.

Lemma Str_eqb_eq (a b : string) : Str.eqb a b = true ↔ a = b.
Proof. unfold Str.eqb. apply String.eqb_eq. Qed.

Lemma Str_eqb_neq (a b : string) : Str.eqb a b = false ↔ a ≠ b.
Proof. unfold Str.eqb. apply String.eqb_neq. Qed.

Lemma Str_eqb_sym (a b : string) : Str.eqb a b = Str.eqb b a.
Proof. unfold Str.eqb. apply String.eqb_sym. Qed.

Ltac str_cases a b :=
  let E := fresh "E" in
  destruct (Str_eqb_spec a b) as [E | E].

(** A string names one of the seven field types, or none. *)
Lemma type_cases (t : string) :
  In t [FieldType.Text; FieldType.Number; FieldType.Date; FieldType.Amount;
        FieldType.SingleSelect; FieldType.MultiSelect; FieldType.Boolean]
  ∨ (Str.eqb t FieldType.Text = false ∧ Str.eqb t FieldType.Number = false
     ∧ Str.eqb t FieldType.Date = false ∧ Str.eqb t FieldType.Amount = false
     ∧ Str.eqb t FieldType.SingleSelect = false ∧ Str.eqb t FieldType.MultiSelect = false
     ∧ Str.eqb t FieldType.Boolean = false).
Proof.
  simpl.
  destruct (Str.eqb t FieldType.Text) eqn:E1; [apply Str_eqb_eq in E1; auto |].
  destruct (Str.eqb t FieldType.Number) eqn:E2; [apply Str_eqb_eq in E2; auto |].
  destruct (Str.eqb t FieldType.Date) eqn:E3; [apply Str_eqb_eq in E3; auto |].
  destruct (Str.eqb t FieldType.Amount) eqn:E4; [apply Str_eqb_eq in E4; auto 6 |].
  destruct (Str.eqb t FieldType.SingleSelect) eqn:E5; [apply Str_eqb_eq in E5; auto 7 |].
  destruct (Str.eqb t FieldType.MultiSelect) eqn:E6; [apply Str_eqb_eq in E6; auto 8 |].
  destruct (Str.eqb t FieldType.Boolean) eqn:E7; [apply Str_eqb_eq in E7; auto 9 |].
  right. auto 10.
Qed.

Ltac known_type Ht :=
  simpl in Ht;
  destruct Ht as [<- | [<- | [<- | [<- | [<- | [<- | [<- | []]]]]]]].

(** ** Loops with a callback that may raise *)

Section Loops.
Context {A : Type}.
Implicit Types (f g : A → result bool) (l : list A).

Lemma every_true f l :
  every f l = Ret true ↔ ∀ x, In x l → f x = Ret true.
Proof.
  induction l as [| x l IH]; simpl.
  - split; [intros _ y [] | reflexivity].
  - destruct (f x) as [[|] | e] eqn:Ex; simpl.
    + rewrite IH. split.
      * intros Hl y [<- | Hy]; auto.
      * intros Hl y Hy. apply Hl. now right.
    + split; [discriminate |]. intros Hl.
      specialize (Hl x (or_introl eq_refl)). congruence.
    + split; [discriminate |]. intros Hl.
      specialize (Hl x (or_introl eq_refl)). congruence.
Qed.

Lemma every_false f l :
  every f l = Ret false → ∃ x, In x l ∧ f x = Ret false.
Proof.
  induction l as [| x l IH]; simpl; [discriminate |].
  destruct (f x) as [[|] | e] eqn:Ex; simpl; intros Hl.
  - destruct (IH Hl) as (y & Hy & Hf). exists y. auto.
  - exists x. auto.
  - discriminate.
Qed.

Lemma every_throw f l e :
  every f l = Throw e → ∃ x, In x l ∧ f x = Throw e.
Proof.
  induction l as [| x l IH]; simpl; [discriminate |].
  destruct (f x) as [[|] | e'] eqn:Ex; simpl; intros Hl.
  - destruct (IH Hl) as (y & Hy & Hf). exists y. auto.
  - discriminate.
  - exists x. split; [now left | congruence].
Qed.

Lemma some_false f l :
  some f l = Ret false ↔ ∀ x, In x l → f x = Ret false.
Proof.
  induction l as [| x l IH]; simpl.
  - split; [intros _ y [] | reflexivity].
  - destruct (f x) as [[|] | e] eqn:Ex; simpl.
    + split; [discriminate |]. intros Hl.
      specialize (Hl x (or_introl eq_refl)). congruence.
    + rewrite IH. split.
      * intros Hl y [<- | Hy]; auto.
      * intros Hl y Hy. apply Hl. now right.
    + split; [discriminate |]. intros Hl.
      specialize (Hl x (or_introl eq_refl)). congruence.
Qed.

Lemma some_true f l :
  some f l = Ret true → ∃ x, In x l ∧ f x = Ret true.
Proof.
  induction l as [| x l IH]; simpl; [discriminate |].
  destruct (f x) as [[|] | e] eqn:Ex; simpl; intros Hl.
  - exists x. auto.
  - destruct (IH Hl) as (y & Hy & Hf). exists y. auto.
  - discriminate.
Qed.

Lemma some_throw f l e :
  some f l = Throw e → ∃ x, In x l ∧ f x = Throw e.
Proof.
  induction l as [| x l IH]; simpl; [discriminate |].
  destruct (f x) as [[|] | e'] eqn:Ex; simpl; intros Hl.
  - discriminate.
  - destruct (IH Hl) as (y & Hy & Hf). exists y. auto.
  - exists x. split; [now left | congruence].
Qed.

Lemma filterA_ret f l out :
  filterA f l = Ret out →
  out = List.filter (λ x, decided (f x)) l ∧ ∀ x, In x l → ∃ b, f x = Ret b.
Proof.
  revert out. induction l as [| x l IH]; simpl; intros out Hl.
  - inversion Hl. split; [reflexivity | intros y []].
  - destruct (f x) as [b | e] eqn:Ex; simpl in Hl; [| discriminate].
    destruct (filterA f l) as [rest | e] eqn:El; simpl in Hl; [| discriminate].
    destruct (IH rest eq_refl) as [-> Hall]. inversion Hl; subst out. split.
    + simpl. now destruct b.
    + intros y [<- | Hy]; eauto.
Qed.

Lemma filterA_throw f l e :
  filterA f l = Throw e → ∃ x, In x l ∧ f x = Throw e.
Proof.
  induction l as [| x l IH]; simpl; [discriminate |].
  destruct (f x) as [b | e'] eqn:Ex; simpl; intros Hl.
  - destruct (filterA f l) as [rest | e''] eqn:El; simpl in Hl; [discriminate |].
    inversion Hl; subst e''. destruct (IH eq_refl) as (y & Hy & Hf). exists y. auto.
  - exists x. split; [now left | congruence].
Qed.

Lemma filterA_ext f g l :
  (∀ x, In x l → f x = g x) → filterA f l = filterA g l.
Proof.
  induction l as [| x l IH]; simpl; intros Hfg; [reflexivity |].
  rewrite (Hfg x (or_introl eq_refl)), IH; [reflexivity |].
  intros y Hy. apply Hfg. now right.
Qed.

Lemma filterA_all f l :
  (∀ x, In x l → f x = Ret true) → filterA f l = Ret l.
Proof.
  induction l as [| x l IH]; simpl; intros Hf; [reflexivity |].
  rewrite (Hf x (or_introl eq_refl)), IH; [reflexivity |].
  intros y Hy. apply Hf. now right.
Qed.

(** Entries on which the callback answers [true] can be left out. *)
Lemma every_filter f (keep : A → bool) l :
  (∀ x, In x l → keep x = false → f x = Ret true) →
  every f (List.filter keep l) = every f l.
Proof.
  induction l as [| x l IH]; simpl; intros Hf; [reflexivity |].
  assert (IH' : every f (List.filter keep l) = every f l).
  { apply IH. intros y Hy. apply Hf. now right. }
  destruct (keep x) eqn:Kx; simpl.
  - now rewrite IH'.
  - rewrite (Hf x (or_introl eq_refl) Kx). simpl. exact IH'.
Qed.

End Loops.

Lemma filter_sublist {A} (p q : A → bool) (l : list A) :
  (∀ x, In x l → p x = true → q x = true) →
  sublist (List.filter p l) (List.filter q l).
Proof.
  induction l as [| x l IH]; simpl; intros Hpq; [constructor |].
  assert (IH' : sublist (List.filter p l) (List.filter q l)).
  { apply IH. intros y Hy. apply Hpq. now right. }
  destruct (p x) eqn:Px.
  - rewrite (Hpq x (or_introl eq_refl) Px). now constructor.
  - destruct (q x); [now constructor | exact IH'].
Qed.

(** ** The field map *)

Lemma fold_insert_lookup (fds : list FieldDefinition) (m : gmap string FieldDefinition) k :
  fold_left (λ m e, <[e.1 := e.2]> m) (map (λ fd, (key fd, fd)) fds) m !! k
  = match lookupField fds k with
    | Some fd => Some fd
    | None => m !! k
    end.
Proof.
  unfold lookupField. revert m.
  induction fds as [| fd fds IH]; intros m; simpl; [reflexivity |].
  rewrite IH. str_cases (key fd) k.
  - rewrite last_cons. destruct (last _); [reflexivity |].
    subst k. now rewrite lookup_insert_eq.
  - destruct (last _); [reflexivity |]. now rewrite lookup_insert_ne.
Qed.

Lemma Map_new_lookup (fds : list FieldDefinition) k :
  Map_new (map (λ fd, (key fd, fd)) fds) !! k = lookupField fds k.
Proof.
  unfold Map_new. rewrite fold_insert_lookup.
  destruct (lookupField fds k); [reflexivity | apply lookup_empty].
Qed.

Lemma lookupField_key fds k fd : lookupField fds k = Some fd → key fd = k ∧ In fd fds.
Proof.
  unfold lookupField. intros Hl.
  assert (Hin : In fd (List.filter (λ fd, Str.eqb (key fd) k) fds)).
  { apply list_elem_of_In. apply last_Some in Hl as [l' ->].
    apply list_elem_of_In, in_or_app. right. now left. }
  apply List.filter_In in Hin as [Hin Hk]. apply Str_eqb_eq in Hk. auto.
Qed.

Lemma lookupField_None fds k :
  lookupField fds k = None ↔ ∀ fd, In fd fds → key fd ≠ k.
Proof.
  unfold lookupField. rewrite last_None. split.
  - intros Hnil fd Hin Hk.
    assert (Hf : In fd (List.filter (λ fd, Str.eqb (key fd) k) fds)).
    { apply List.filter_In. split; [exact Hin | now apply Str_eqb_eq]. }
    rewrite Hnil in Hf. destruct Hf.
  - intros Hne. destruct (List.filter _ fds) as [| fd l] eqn:Ef; [reflexivity |].
    assert (Hf : In fd (List.filter (λ fd, Str.eqb (key fd) k) fds)).
    { rewrite Ef. now left. }
    apply List.filter_In in Hf as [Hin Hk]. apply Str_eqb_eq in Hk.
    now destruct (Hne fd Hin).
Qed.

(** ** Grouping by field *)

Lemma groups_snoc cs c :
  groups (cs ++ [c]) = groups_step (groups cs) c.
Proof. unfold groups. now rewrite fold_left_app. Qed.

Lemma assoc_Some_In {A} k (props : list (string * A)) v :
  assoc k props = Some v → In (k, v) props.
Proof.
  induction props as [| [k' v'] props IH]; simpl; [discriminate |].
  str_cases k k'.
  - intros [= ->]. subst. now left.
  - intros Hv. right. auto.
Qed.

Lemma assoc_None_In {A} k (props : list (string * A)) v :
  assoc k props = None → ¬ In (k, v) props.
Proof.
  induction props as [| [k' v'] props IH]; simpl; [tauto |].
  str_cases k k'; [discriminate |].
  intros Hn [[= -> ->] | Hin]; [congruence | now apply IH].
Qed.

Lemma groupOf_snoc cs c k :
  groupOf (cs ++ [c]) k = groupOf cs k ++ (if Str.eqb (fieldKey c) k then [c] else []).
Proof. unfold groupOf. rewrite List.filter_app. reflexivity. Qed.

Lemma groupOf_In cs k c : In c (groupOf cs k) ↔ In c cs ∧ fieldKey c = k.
Proof. unfold groupOf. rewrite List.filter_In, Str_eqb_eq. reflexivity. Qed.

Lemma groupOf_nil cs k : (∀ c, In c cs → fieldKey c ≠ k) → groupOf cs k = [].
Proof.
  intros Hne. destruct (groupOf cs k) as [| c g] eqn:Eg; [reflexivity |].
  assert (Hc : In c (groupOf cs k)) by (rewrite Eg; now left).
  apply groupOf_In in Hc as [Hin Hk]. now destruct (Hne c Hin).
Qed.

(** The groups are exactly the conditions of each field key that occurs. *)
Lemma groups_spec cs :
  (∀ k g, In (k, g) (groups cs) → g = groupOf cs k ∧ ∃ c, In c cs ∧ fieldKey c = k)
  ∧ (∀ c, In c cs → In (fieldKey c, groupOf cs (fieldKey c)) (groups cs)).
Proof.
  induction cs as [| c cs [IHa IHb]] using rev_ind.
  - split; [intros k g [] | intros c []].
  - rewrite groups_snoc. unfold groups_step.
    set (acc := match assoc (fieldKey c) (groups cs) with
                | Some _ => groups cs
                | None => groups cs ++ [(fieldKey c, [])]
                end).
    assert (Hacc : ∀ k g, In (k, g) acc →
              In (k, g) (groups cs)
              ∨ (k = fieldKey c ∧ g = [] ∧ assoc (fieldKey c) (groups cs) = None)).
    { intros k g. subst acc. destruct (assoc _ _) eqn:Ea; [now left |].
      intros Hin. apply in_app_or in Hin as [Hin | [[= <- <-] | []]]; auto. }
    assert (Hfresh : assoc (fieldKey c) (groups cs) = None → groupOf cs (fieldKey c) = []).
    { intros Ea. apply groupOf_nil. intros c' Hc' Hk.
      specialize (IHb c' Hc'). rewrite Hk in IHb.
      now apply (assoc_None_In _ _ _ Ea) in IHb. }
    split.
    + intros k g Hin. apply in_map_iff in Hin as ([k' g'] & Heq & Hin). simpl in Heq.
      rewrite groupOf_snoc. apply Hacc in Hin as [Hin | (-> & -> & Ea)].
      * destruct (IHa k' g' Hin) as [-> (c' & Hc' & Hk')].
        rewrite (Str_eqb_sym (fieldKey c) k).
        assert (Hex : ∃ c0, In c0 (cs ++ [c]) ∧ fieldKey c0 = k').
        { exists c'. split; [apply in_or_app; now left | exact Hk']. }
        destruct (Str.eqb k' (fieldKey c)) eqn:E; injection Heq as <- <-;
          rewrite E, ?app_nil_r; auto.
      * rewrite Str_eqb_refl in Heq. inversion Heq; subst k g.
        rewrite Str_eqb_refl, (Hfresh Ea). split; [reflexivity |].
        exists c. split; [apply in_or_app; right; now left | reflexivity].
    + intros c' Hc'. rewrite groupOf_snoc. apply in_map_iff.
      apply in_app_or in Hc' as [Hc' | [<- | []]].
      * exists (fieldKey c', groupOf cs (fieldKey c')). simpl. split.
        -- rewrite (Str_eqb_sym (fieldKey c)). now destruct (Str.eqb _ _); rewrite ?app_nil_r.
        -- subst acc. destruct (assoc _ _); [auto | apply in_or_app; left; auto].
      * rewrite Str_eqb_refl. subst acc.
        destruct (assoc (fieldKey c) (groups cs)) as [g |] eqn:Ea.
        -- apply assoc_Some_In in Ea. destruct (IHa _ _ Ea) as [-> _].
           exists (fieldKey c, groupOf cs (fieldKey c)). simpl.
           rewrite Str_eqb_refl. auto.
        -- exists (fieldKey c, []). simpl. rewrite Str_eqb_refl, (Hfresh eq_refl).
           split; [reflexivity | apply in_or_app; right; now left].
Qed.

Section GroupFilter.
Context (P : string → bool).

Let keepEntry (e : string * list FilterCondition) : bool := P e.1.

Lemma assoc_filter {A} k (props : list (string * A)) :
  P k = true → assoc k (List.filter (λ e, P e.1) props) = assoc k props.
Proof.
  intros Pk. induction props as [| [k' v] props IH]; simpl; [reflexivity |].
  str_cases k k'.
  - subst k'. rewrite Pk. simpl. now rewrite Str_eqb_refl.
  - destruct (P k'); simpl; [| exact IH].
    apply Str_eqb_neq in E. now rewrite E.
Qed.

Lemma groups_step_filter acc c :
  List.filter keepEntry (groups_step acc c)
  = if P (fieldKey c) then groups_step (List.filter keepEntry acc) c
    else List.filter keepEntry acc.
Proof.
  unfold groups_step.
  set (upd := λ p : string * list FilterCondition,
         if Str.eqb p.1 (fieldKey c) then (p.1, p.2 ++ [c]) else p).
  assert (Hmap : ∀ l, List.filter keepEntry (map upd l) = map upd (List.filter keepEntry l)).
  { induction l as [| [k g] l IH]; simpl; [reflexivity |].
    assert (Hk : keepEntry (upd (k, g)) = keepEntry (k, g)).
    { unfold upd, keepEntry. simpl. now destruct (Str.eqb k (fieldKey c)). }
    rewrite Hk. destruct (keepEntry (k, g)); simpl; now rewrite IH. }
  rewrite Hmap. destruct (P (fieldKey c)) eqn:Pc.
  - unfold keepEntry at 2. rewrite (assoc_filter _ _ Pc).
    destruct (assoc _ acc); [reflexivity |].
    rewrite List.filter_app. simpl. unfold keepEntry at 2. simpl. now rewrite Pc.
  - assert (Hacc : List.filter keepEntry
                     (match assoc (fieldKey c) acc with
                      | Some _ => acc
                      | None => acc ++ [(fieldKey c, [])]
                      end) = List.filter keepEntry acc).
    { destruct (assoc _ acc); [reflexivity |].
      rewrite List.filter_app. simpl. unfold keepEntry at 2. simpl.
      now rewrite Pc, app_nil_r. }
    rewrite Hacc. clear Hacc.
    induction acc as [| [k g] acc IH]; simpl; [reflexivity |].
    change (keepEntry (k, g)) with (P k). destruct (P k) eqn:Pk; [| exact IH].
    simpl. rewrite IH. f_equal. unfold upd. simpl.
    str_cases k (fieldKey c); [congruence | reflexivity].
Qed.

(** Grouping the conditions on the selected keys gives the selected groups. *)
Lemma groups_filter cs :
  groups (List.filter (λ c, P (fieldKey c)) cs)
  = List.filter keepEntry (groups cs).
Proof.
  induction cs as [| c cs IH] using rev_ind; [reflexivity |].
  rewrite List.filter_app, groups_snoc, groups_step_filter. simpl.
  destruct (P (fieldKey c)).
  - now rewrite groups_snoc, IH.
  - now rewrite app_nil_r.
Qed.

End GroupFilter.

(** ** The order of [Object.entries] *)

Section Entries.
Context {A : Type}.
Implicit Types (props : list (string * A)) (l : list (N * (string * A))).

Lemma insertByIndex_In i (p : string * A) l x :
  In x (insertByIndex i p l) ↔ x = (i, p) ∨ In x l.
Proof.
  induction l as [| [j q] l IH]; simpl.
  - split; [intros [<- | []]; auto | intros [-> | []]; auto].
  - destruct (i <=? j)%N; simpl; [| rewrite IH]; intuition congruence.
Qed.

Lemma indexedEntries_In props i p :
  In (i, p) (indexedEntries props) ↔ In p props ∧ Str.arrayIndex p.1 = Some i.
Proof.
  induction props as [| q props IH]; simpl; [tauto |].
  destruct (Str.arrayIndex q.1) as [j |] eqn:Eq.
  - rewrite insertByIndex_In, IH. split.
    + intros [[= -> ->] | [Hin Hi]]; auto.
    + intros [[-> | Hin] Hi]; [left; congruence | right; auto].
  - rewrite IH. split.
    + intros [Hin Hi]; auto.
    + intros [[-> | Hin] Hi]; [congruence | auto].
Qed.

(** [Object.entries] lists every own property once: it is a rearrangement. *)
Lemma Object_entries_In props p : In p (Object_entries props) ↔ In p props.
Proof.
  unfold Object_entries, isArrayIndex. rewrite in_app_iff, in_map_iff, List.filter_In. split.
  - intros [([i q] & <- & Hin) | [Hin _]]; [| exact Hin].
    now apply indexedEntries_In in Hin as [Hin _].
  - intros Hin. destruct (Str.arrayIndex p.1) as [i |] eqn:Ei; [left | right; auto].
    exists (i, p). split; [reflexivity |]. now apply indexedEntries_In.
Qed.

Lemma insertByIndex_front i (p : string * A) l :
  Forall (λ q, (i <= q.1)%N) l → insertByIndex i p l = (i, p) :: l.
Proof.
  destruct l as [| [j q] l]; simpl; [reflexivity |].
  intros Hall. apply Forall_cons_1 in Hall as [Hj _]. simpl in Hj.
  apply N.leb_le in Hj. now rewrite Hj.
Qed.

Lemma insertByIndex_ascending i (p : string * A) l :
  ascending l → ascending (insertByIndex i p l).
Proof.
  induction l as [| [j q] l IH]; simpl; [auto |].
  intros [Hall Hl]. destruct (i <=? j)%N eqn:Hij; simpl.
  - apply N.leb_le in Hij. repeat split; [| exact Hall | exact Hl].
    constructor; [exact Hij |].
    eapply Forall_impl; [exact Hall |]. simpl. intros x Hx. lia.
  - apply N.leb_gt in Hij. split; [| auto].
    apply Forall_forall. intros x Hx. apply list_elem_of_In, insertByIndex_In in Hx.
    destruct Hx as [-> | Hx]; simpl; [lia |].
    rewrite Forall_forall in Hall. apply Hall. now apply list_elem_of_In.
Qed.

Lemma indexedEntries_ascending props : ascending (indexedEntries props).
Proof.
  induction props as [| q props IH]; simpl; [exact I |].
  destruct (Str.arrayIndex q.1); [now apply insertByIndex_ascending | exact IH].
Qed.

Lemma filter_insertByIndex (keep : N * (string * A) → bool) i p l :
  ascending l →
  List.filter keep (insertByIndex i p l)
  = if keep (i, p) then insertByIndex i p (List.filter keep l) else List.filter keep l.
Proof.
  induction l as [| [j q] l IH]; simpl.
  - intros _. now destruct (keep (i, p)).
  - intros [Hall Hl]. destruct (i <=? j)%N eqn:Hij; simpl.
    + apply N.leb_le in Hij. destruct (keep (i, p)); [| reflexivity].
      symmetry. apply insertByIndex_front.
      apply Forall_forall. intros x Hx. apply list_elem_of_In in Hx.
      change (In x (List.filter keep ((j, q) :: l))) in Hx.
      apply List.filter_In in Hx as [[<- | Hx] _]; simpl; [exact Hij |].
      rewrite Forall_forall in Hall. apply list_elem_of_In, Hall in Hx. simpl in Hx. lia.
    + rewrite (IH Hl). destruct (keep (j, q)), (keep (i, p)); simpl; now rewrite ?Hij.
Qed.

Lemma Object_entries_filter (P : string → bool) props :
  Object_entries (List.filter (λ p, P p.1) props)
  = List.filter (λ p, P p.1) (Object_entries props).
Proof.
  unfold Object_entries. rewrite List.filter_app. f_equal.
  - assert (Hidx : indexedEntries (List.filter (λ p, P p.1) props)
                   = List.filter (λ x, P x.2.1) (indexedEntries props)).
    { induction props as [| q props IH]; simpl; [reflexivity |].
      destruct (Str.arrayIndex q.1) as [i |] eqn:Eq.
      - rewrite filter_insertByIndex by apply indexedEntries_ascending. simpl.
        destruct (P q.1); simpl; [now rewrite Eq, IH | exact IH].
      - destruct (P q.1); simpl; [now rewrite Eq | exact IH]. }
    rewrite Hidx. generalize (indexedEntries props). intros l.
    induction l as [| [i q] l IH]; simpl; [reflexivity |].
    destruct (P q.1); simpl; now rewrite IH.
  - induction props as [| q props IH]; simpl; [reflexivity |].
    destruct (P q.1) eqn:Pq, (negb (isArrayIndex q.1)) eqn:Iq; simpl;
      rewrite ?Pq, ?Iq, IH; reflexivity.
Qed.

End Entries.

(** ** The reducer and what its accumulator inherits *)

Lemma existsb_false {A} (p : A → bool) (l : list A) :
  (∀ x, In x l → p x = false) → existsb p l = false.
Proof.
  intros Hp. apply not_true_iff_false. intros He.
  apply existsb_exists in He as (x & Hx & Hpx). rewrite (Hp x Hx) in Hpx. discriminate.
Qed.

Lemma existsb_filter {A} (p keep : A → bool) (l : list A) :
  (∀ x, In x l → keep x = false → p x = false) →
  existsb p (List.filter keep l) = existsb p l.
Proof.
  induction l as [| x l IH]; simpl; intros Hp; [reflexivity |].
  assert (IH' : existsb p (List.filter keep l) = existsb p l).
  { apply IH. intros y Hy. apply Hp. now right. }
  destruct (keep x) eqn:Kx; simpl.
  - now rewrite IH'.
  - now rewrite (Hp x (or_introl eq_refl) Kx), IH'.
Qed.

Lemma assoc_app {A} k (l1 l2 : list (string * A)) :
  assoc k (l1 ++ l2) = match assoc k l1 with
                       | Some v => Some v
                       | None => assoc k l2
                       end.
Proof.
  induction l1 as [| [k' v] l1 IH]; simpl; [reflexivity |].
  now destruct (Str.eqb k k').
Qed.

Lemma assoc_map_same_keys {A} (f : string * A → string * A) k (l : list (string * A)) :
  (∀ p, (f p).1 = p.1) → assoc k (map f l) = None ↔ assoc k l = None.
Proof.
  intros Hf. induction l as [| [k' v] l IH]; simpl; [reflexivity |].
  specialize (Hf (k', v)). destruct (f (k', v)) as [k'' v']. simpl in Hf. subst k''.
  now destruct (Str.eqb k k').
Qed.

Lemma groupByField_step_own acc c :
  inheritedName (fieldKey c) = false →
  groupByField_step acc c = Ret (groups_step acc c).
Proof.
  intros Hinh. unfold groupByField_step, groups_step. rewrite Hinh, orb_false_r.
  destruct (assoc (fieldKey c) acc) as [g |] eqn:Ea; simpl.
  - now rewrite Ea.
  - rewrite assoc_app, Ea. simpl. now rewrite Str_eqb_refl.
Qed.

Lemma groupByField_step_inherited acc c :
  inheritedName (fieldKey c) = true → cleanKeys acc →
  groupByField_step acc c = Throw pushError.
Proof.
  intros Hinh Hclean. unfold groupByField_step.
  rewrite Hinh, orb_true_r. now rewrite (Hclean _ Hinh).
Qed.

Lemma groups_step_cleanKeys acc c :
  inheritedName (fieldKey c) = false → cleanKeys acc → cleanKeys (groups_step acc c).
Proof.
  intros Hinh Hclean k Hk. unfold groups_step. apply assoc_map_same_keys.
  - intros [k' g]. simpl. now destruct (Str.eqb k' (fieldKey c)).
  - destruct (assoc (fieldKey c) acc); [now apply Hclean |].
    rewrite assoc_app, (Hclean k Hk). simpl.
    str_cases k (fieldKey c); [congruence | reflexivity].
Qed.

Lemma reduceA_groupByField cs acc :
  cleanKeys acc →
  reduceA groupByField_step cs acc
  = if existsb (λ c, inheritedName (fieldKey c)) cs then Throw pushError
    else Ret (fold_left groups_step cs acc).
Proof.
  revert acc. induction cs as [| c cs IH]; intros acc Hclean; simpl; [reflexivity |].
  destruct (inheritedName (fieldKey c)) eqn:Hinh; simpl.
  - now rewrite groupByField_step_inherited.
  - rewrite groupByField_step_own by exact Hinh. simpl.
    apply IH. now apply groups_step_cleanKeys.
Qed.

(** Grouping raises exactly when a condition is on a name that a plain
    object inherits; otherwise it returns the groups. *)
Lemma groupByField_groups cs :
  groupByField cs
  = if existsb (λ c, inheritedName (fieldKey c)) cs then Throw pushError
    else Ret (groups cs).
Proof. unfold groupByField, groups. apply reduceA_groupByField. intros k _. reflexivity. Qed.

(* ------------------------------------------------------------------ *)
(** ** The filter pass *)

Section FilterPass.
Context (H : Host).
Implicit Types (data : list Record) (record : Record) (fds : list FieldDefinition).
Implicit Types (cs : list FilterCondition) (c : FilterCondition).

Let fieldMapOf fds := Map_new (map (λ fd, (key fd, fd)) fds).

(** The early return on an empty list of valid conditions agrees with the
    general pass: with no group, every record is kept. *)
Lemma applyFilters_pass data cs fds :
  applyFilters H data cs fds
  = if existsb (λ c, inheritedName (fieldKey c)) (List.filter isValidFilter cs)
    then Throw pushError
    else filterA (λ record, every (groupSatisfied H (fieldMapOf fds) record)
                              (Object_entries (groups (List.filter isValidFilter cs))))
           data.
Proof.
  unfold applyFilters. destruct (List.filter isValidFilter cs) as [| c0 V] eqn:EV.
  - simpl. symmetry. apply filterA_all. reflexivity.
  - cbn [length Nat.eqb]. rewrite groupByField_groups.
    now destruct (existsb _ (c0 :: V)).
Qed.

Lemma groupSatisfied_lookup fds record k g :
  groupSatisfied H (fieldMapOf fds) record (k, g)
  = match lookupField fds k with
    | None => Ret true
    | Some fieldDef => some (λ c, matchCondition H record c fieldDef) g
    end.
Proof. unfold groupSatisfied, fieldMapOf. simpl. now rewrite Map_new_lookup. Qed.

Lemma groupSatisfied_decides fds V record k g b :
  In (k, g) (groups V) →
  groupSatisfied H (fieldMapOf fds) record (k, g) = Ret b →
  groupHolds H fds V record k = b.
Proof.
  intros Hin. destruct (proj1 (groups_spec V) k g Hin) as [-> _].
  rewrite groupSatisfied_lookup. unfold groupHolds.
  destruct (lookupField fds k) as [fd |]; [| congruence].
  destruct b; intros Hs.
  - apply some_true in Hs as (c & Hc & Hm). apply existsb_exists. exists c.
    split; [exact Hc |]. unfold conditionMatches. now rewrite Hm.
  - apply existsb_false. intros c Hc. unfold conditionMatches.
    now rewrite (proj1 (some_false _ _) Hs c Hc).
Qed.

Lemma pass_decides fds V record b :
  every (groupSatisfied H (fieldMapOf fds) record) (Object_entries (groups V)) = Ret b →
  keepsRecord H fds V record = b.
Proof.
  unfold keepsRecord. destruct b; intros He.
  - apply forallb_forall. intros c Hc.
    apply (groupSatisfied_decides fds V record _ (groupOf V (fieldKey c))).
    + now apply groups_spec.
    + apply (proj1 (every_true _ _) He). apply Object_entries_In. now apply groups_spec.
  - apply every_false in He as ([k g] & Hin & Hg). apply (proj1 (Object_entries_In _ _)) in Hin.
    apply (groupSatisfied_decides fds V record k g false Hin) in Hg.
    destruct (proj1 (groups_spec V) k g Hin) as [_ (c & Hc & Hk)].
    apply not_true_iff_false. intros Hall.
    rewrite forallb_forall in Hall. specialize (Hall c Hc). rewrite Hk in Hall. congruence.
Qed.

Lemma pass_throws fds V record e :
  every (groupSatisfied H (fieldMapOf fds) record) (Object_entries (groups V)) = Throw e →
  ∃ c fieldDef, In c V ∧ lookupField fds (fieldKey c) = Some fieldDef
                ∧ matchCondition H record c fieldDef = Throw e.
Proof.
  intros He. apply every_throw in He as ([k g] & Hin & Hg).
  apply (proj1 (Object_entries_In _ _)) in Hin.
  destruct (proj1 (groups_spec V) k g Hin) as [-> _].
  rewrite groupSatisfied_lookup in Hg.
  destruct (lookupField fds k) as [fd |] eqn:Ek; [| discriminate].
  apply some_throw in Hg as (c & Hc & Hm). apply groupOf_In in Hc as [Hc Hk].
  exists c, fd. subst k. auto.
Qed.

Lemma applyFilters_ret data cs fds out :
  applyFilters H data cs fds = Ret out →
  out = List.filter (keepsRecord H fds (List.filter isValidFilter cs)) data.
Proof.
  rewrite applyFilters_pass. destruct (existsb _ _); [discriminate |]. intros Ef.
  apply filterA_ret in Ef as [-> Hall].
  apply List.filter_ext_in. intros record Hr.
  destruct (Hall record Hr) as [b Hb]. rewrite Hb. simpl.
  symmetry. now apply pass_decides.
Qed.

Lemma applyFilters_throw data cs fds e :
  applyFilters H data cs fds = Throw e →
  (e = pushError
   ∧ ∃ c, In c (List.filter isValidFilter cs) ∧ inheritedName (fieldKey c) = true)
  ∨ (∃ record c fieldDef,
       In record data ∧ In c (List.filter isValidFilter cs)
       ∧ lookupField fds (fieldKey c) = Some fieldDef
       ∧ matchCondition H record c fieldDef = Throw e).
Proof.
  rewrite applyFilters_pass.
  destruct (existsb _ _) eqn:Einh; intros Ef.
  - left. split; [congruence |].
    apply existsb_exists in Einh as (c & Hc & Hinh). eauto.
  - right. apply filterA_throw in Ef as (record & Hr & He).
    apply pass_throws in He as (c & fd & Hc & Hk & Hm).
    exists record, c, fd. auto.
Qed.


(** *** The evaluation of the specification is the dispatcher's *)

Lemma isMapping_spec (v : JsValue) :
  isMapping v = ToBoolean v && Str.eqb (typeof v) "object".
Proof.
  destruct v as [[| | b | n | s | elems | props] | [| | ofArray name]]; simpl;
    rewrite ?andb_false_r; reflexivity.
Qed.

Lemma valueAt_undefined keys : valueAt H JUndefined keys = JUndefined.
Proof. destruct keys; reflexivity. Qed.

Lemma fold_valueAt keys (v : JsValue) :
  fold_left (getNestedValue_step H) keys v = valueAt H v keys.
Proof.
  revert v. induction keys as [| k keys IH]; intros v; simpl; [reflexivity |].
  rewrite IH. unfold getNestedValue_step. rewrite <- isMapping_spec.
  destruct (isMapping v); simpl; [| apply valueAt_undefined].
  unfold hasProperty, getProperty.
  destruct (lookupProperty H v k); simpl; [reflexivity | apply valueAt_undefined].
Qed.

Lemma getNestedValue_readPath record path :
  getNestedValue H record path = readPath H record path.
Proof. apply fold_valueAt. Qed.

Lemma matchCondition_evaluate record c fd :
  matchCondition H record c fd = evaluate H record fd c.
Proof.
  unfold matchCondition, evaluate. rewrite getNestedValue_readPath.
  generalize (readPath H record (fieldKey c)) as v. generalize (type fd) as t.
  intros t v. destruct (type_cases t) as [Ht | Hno].
  - known_type Ht; cbn; try reflexivity.
    unfold isArray. now destruct (arrayElements v).
  - destruct Hno as (E1 & E2 & E3 & E4 & E5 & E6 & E7).
    unfold kindOf. simpl. now rewrite E1, E2, E3, E4, E5, E6, E7.
Qed.




(** *** Identity without a valid condition *)

Lemma filter_none {A} (p : A → bool) (l : list A) :
  (∀ x, In x l → p x = false) → List.filter p l = [].
Proof.
  induction l as [| x l IH]; simpl; intros Hp; [reflexivity |].
  rewrite (Hp x (or_introl eq_refl)). apply IH. intros y Hy. apply Hp. now right.
Qed.

(** C5. When no condition of the list passes the validator, in particular
    when the list is empty, [applyFilters] returns the dataset unchanged. *)
Theorem applyFilters_identity_without_valid_condition data cs fds :
  (∀ c, In c cs → isValidFilter c = false) →
  applyFilters H data cs fds = Ret data.
Proof.
  intros Hinv. unfold applyFilters.
  now rewrite (filter_none isValidFilter cs Hinv).
Qed.

(** *** Validator gating *)

Lemma isValidFilter_unset c :
  fieldKey c = "" ∨ operator c = "" → isValidFilter c = false.
Proof.
  unfold isValidFilter. intros [-> | ->]; simpl; [reflexivity |].
  now rewrite orb_true_r.
Qed.

(** C7. A condition whose field key or operator is empty is invalid, and
    adding it anywhere in the condition list leaves the outcome of
    [applyFilters] unchanged. *)
Theorem validator_gating data cs1 cs2 c fds :
  fieldKey c = "" ∨ operator c = "" →
  isValidFilter c = false
  ∧ applyFilters H data (cs1 ++ c :: cs2) fds = applyFilters H data (cs1 ++ cs2) fds.
Proof.
  intros Hunset. pose proof (isValidFilter_unset c Hunset) as Hc.
  split; [exact Hc |].
  unfold applyFilters. rewrite !List.filter_app. simpl. now rewrite Hc.
Qed.

(** *** A condition on a new field key *)




(** *** Field keys without a definition *)

Lemma hasDefinition_lookup fds k :
  hasDefinition fds k = false ↔ lookupField fds k = None.
Proof.
  rewrite lookupField_None. unfold hasDefinition. split.
  - intros He fd Hin Hk.
    assert (Ht : existsb (λ fd, Str.eqb (key fd) k) fds = true).
    { apply existsb_exists. exists fd. split; [exact Hin | now apply Str_eqb_eq]. }
    congruence.
  - intros Hne. apply existsb_false. intros fd Hin. apply Str_eqb_neq. auto.
Qed.

Lemma filter_comm {A} (p q : A → bool) (l : list A) :
  List.filter p (List.filter q l) = List.filter q (List.filter p l).
Proof.
  induction l as [| x l IH]; simpl; [reflexivity |].
  destruct (p x) eqn:Px, (q x) eqn:Qx; simpl; rewrite ?Px, ?Qx, IH; reflexivity.
Qed.

(** When no condition to drop is on a name that a plain object inherits,
    the conditions without a definition can be left out. *)
Lemma applyFilters_drop_undefined data cs fds :
  (∀ c, In c cs → isValidFilter c = true → hasDefinition fds (fieldKey c) = false →
        inheritedName (fieldKey c) = false) →
  applyFilters H data cs fds
  = applyFilters H data (List.filter (λ c, hasDefinition fds (fieldKey c)) cs) fds.
Proof.
  intros Hclean. rewrite !applyFilters_pass. rewrite filter_comm.
  rewrite (existsb_filter (λ c, inheritedName (fieldKey c))
             (λ c, hasDefinition fds (fieldKey c))).
  2:{ intros c Hc. apply List.filter_In in Hc as [Hc Hv]. now apply Hclean. }
  destruct (existsb _ _); [reflexivity |].
  apply filterA_ext. intros record _.
  rewrite (groups_filter (hasDefinition fds)).
  rewrite (Object_entries_filter (hasDefinition fds)).
  symmetry. apply every_filter. intros [k g] _ Hk. simpl in Hk.
  rewrite groupSatisfied_lookup. apply hasDefinition_lookup in Hk. now rewrite Hk.
Qed.

Lemma groupSatisfied_undefined fds record k g :
  hasDefinition fds k = false →
  groupSatisfied H (Map_new (map (λ fd, (key fd, fd)) fds)) record (k, g) = Ret true.
Proof.
  intros Hk. apply hasDefinition_lookup in Hk.
  pose proof (groupSatisfied_lookup fds record k g) as Hg.
  unfold fieldMapOf in Hg. rewrite Hg. now rewrite Hk.
Qed.

(** C8 (the code at a failing input). A valid condition on the field key
    ["constructor"], which has no definition in the schema, makes
    [applyFilters] raise on every dataset, whereas on the conditions whose
    field key has a definition it returns the dataset: the group is not
    treated as satisfied. *)
Theorem unknown_inherited_field_key_raises data :
  isValidFilter Scenario.ghostConstructor = true
  ∧ hasDefinition Scenario.schema (fieldKey Scenario.ghostConstructor) = false
  ∧ applyFilters H data [Scenario.ghostConstructor] Scenario.schema = Throw pushError
  ∧ applyFilters H data
      (List.filter (λ c, hasDefinition Scenario.schema (fieldKey c))
         [Scenario.ghostConstructor])
      Scenario.schema = Ret data.
Proof.
  split; [reflexivity |]. split; [reflexivity |]. split.
  - rewrite applyFilters_pass. reflexivity.
  - reflexivity.
Qed.

End FilterPass.

(* ------------------------------------------------------------------ *)
(** ** The dispatcher and the matchers *)

Section Matchers.
Context (H : Host).
Implicit Types (record : Record) (c : FilterCondition) (fd : FieldDefinition).

(** The value the dispatcher reads, as each matcher receives it. *)
Let rawValue record c := getNestedValue H record (fieldKey c).


Lemma matchCondition_Number record c fd :
  type fd = FieldType.Number →
  matchCondition H record c fd
  = (number ← ToNumber H (rawValue record c);
     matchNumber H number (value c) (operator c)).
Proof. intros Ht. unfold matchCondition. now rewrite Ht. Qed.


Lemma matchCondition_Amount record c fd :
  type fd = FieldType.Amount →
  matchCondition H record c fd
  = (number ← ToNumber H (rawValue record c); matchAmountRange number (value c)).
Proof. intros Ht. unfold matchCondition. now rewrite Ht. Qed.





Lemma matchCondition_MultiSelect record c fd :
  type fd = FieldType.MultiSelect →
  matchCondition H record c fd
  = matchMultiSelect (if isArray (rawValue record c) then rawValue record c else JArr [])
      (value c) (operator c).
Proof. intros Ht. unfold matchCondition. now rewrite Ht. Qed.

Lemma matchCondition_Boolean record c fd :
  type fd = FieldType.Boolean →
  matchCondition H record c fd = matchBoolean (rawValue record c) (value c).
Proof. intros Ht. unfold matchCondition. now rewrite Ht. Qed.

(** *** No matcher raises on a value of a fitting shape *)

Ltac split_cases :=
  repeat (simpl;
          match goal with
          | |- context [match ?x with _ => _ end] => destruct x eqn:?
          end);
  simpl; eauto.

Lemma matchText_returns v s op : ∃ b, matchText H v (FvStr s) op = Ret b.
Proof. unfold matchText, try_catch. split_cases. Qed.

Lemma matchNumber_returns n fv op :
  fv ≠ FvUndefined → fv ≠ FvNull → ∃ b, matchNumber H n fv op = Ret b.
Proof.
  intros Hu Hn. unfold matchNumber.
  destruct (PrimFloat.is_nan n); [eauto |].
  destruct (Str.eqb op "numberBetween").
  - destruct fv; simpl; eauto; congruence.
  - destruct (PrimFloat.is_nan (FilterValue_ToNumber H fv)); [eauto |].
    repeat (match goal with |- context [Str.eqb ?a ?b] => destruct (Str.eqb a b) end; eauto).
Qed.

Lemma matchDate_returns v fv op :
  fv ≠ FvUndefined → fv ≠ FvNull → ∃ b, matchDate H v fv op = Ret b.
Proof.
  intros Hu Hn. unfold matchDate.
  destruct (negb (isValid H (dayjs H v))); [eauto |].
  destruct fv; try congruence; unfold truthyString; split_cases.
Qed.

Lemma matchAmountRange_returns n fv :
  fv ≠ FvUndefined → fv ≠ FvNull → ∃ b, matchAmountRange n fv = Ret b.
Proof.
  intros Hu Hn. unfold matchAmountRange.
  destruct (PrimFloat.is_nan n); [eauto |].
  destruct fv; simpl; eauto; congruence.
Qed.

Lemma matchSingleSelect_returns v fv op : ∃ b, matchSingleSelect v fv op = Ret b.
Proof. unfold matchSingleSelect. split_cases. Qed.

Lemma matchMultiSelect_returns values l op : ∃ b, matchMultiSelect values (FvList l) op = Ret b.
Proof. unfold matchMultiSelect. split_cases. Qed.

(** The dispatcher returns when the condition value has a fitting shape
    and the value read from the record can be converted. *)
Lemma matchCondition_returns record c fd :
  valueFits (type fd) (value c) = true →
  (∃ u, convert H (type fd) (rawValue record c) = Ret u) →
  ∃ b, matchCondition H record c fd = Ret b.
Proof.
  unfold matchCondition. fold (rawValue record c).
  generalize (rawValue record c) as raw. generalize (type fd) as t.
  intros t raw Hfit [u Hconv].
  destruct (type_cases t) as [Ht | Hno].
  - unfold valueFits in Hfit. unfold convert in Hconv.
    known_type Ht; cbn in Hfit, Hconv |- *;
      try (destruct (ToString H (nullish raw (JStr ""))) as [text | e]; [| discriminate]);
      try (destruct (ToNumber H raw) as [number | e]; [| discriminate]);
      cbn.
    + destruct (value c); try discriminate. apply matchText_returns.
    + apply matchNumber_returns; intros E; now rewrite E in Hfit.
    + apply matchDate_returns; intros E; now rewrite E in Hfit.
    + apply matchAmountRange_returns; intros E; now rewrite E in Hfit.
    + apply matchSingleSelect_returns.
    + destruct (value c); try discriminate. apply matchMultiSelect_returns.
    + unfold matchBoolean. eauto.
  - destruct Hno as (E1 & E2 & E3 & E4 & E5 & E6 & E7).
    rewrite E1, E2, E3, E4, E5, E6, E7. eauto.
Qed.

(** So does the evaluation in the words of the specification. *)
Lemma evaluate_returns record c fd :
  valueFits (type fd) (value c) = true →
  (∃ u, convert H (type fd) (readPath H record (fieldKey c)) = Ret u) →
  ∃ b, evaluate H record fd c = Ret b.
Proof.
  rewrite <- matchCondition_evaluate, <- getNestedValue_readPath.
  apply matchCondition_returns.
Qed.




(** *** AND monotonicity *)


(** *** Text: case and patterns *)

(** C2 (as amended). The Text operators other than [regex] compare the
    lower-cased operands: record values that differ only in letter case, and
    condition values that differ only in letter case, give the same result. *)
Theorem text_operators_ignore_case v1 v2 f1 f2 op :
  Str.toLowerCase v1 = Str.toLowerCase v2 →
  Str.toLowerCase f1 = Str.toLowerCase f2 →
  op ≠ "regex" →
  matchText H v1 (FvStr f1) op = matchText H v2 (FvStr f2) op.
Proof.
  intros Hv Hf Hop. unfold matchText. rewrite Hv, Hf.
  apply Str_eqb_neq in Hop. rewrite Hop. reflexivity.
Qed.

(** C9 (as amended). On a condition value that is a string, the [regex]
    operator compiles it under the flag ["i"] and tests the pattern on the
    record value as it is; when the pattern does not compile the result is
    [false]; no exception leaves the matcher.  On a condition value that is
    not a string the matcher raises a [TypeError], before it looks at the
    operator. *)
Theorem regex_operator_catches_pattern_errors v pattern :
  matchText H v (FvStr pattern) "regex"
  = Ret (match RegExp_new H pattern "i" with
         | Ret re => RegExp_test H re v
         | Throw _ => false
         end)
  ∧ ∀ fv op, (∀ s, fv ≠ FvStr s) → ∃ message, matchText H v fv op = Throw (TypeError message).
Proof.
  split.
  - unfold matchText. simpl. unfold try_catch.
    destruct (RegExp_new H pattern "i") as [re | e]; reflexivity.
  - intros fv op Hfv. unfold matchText, readOf.
    destruct fv; eauto. now destruct (Hfv s).
Qed.

(** *** MultiSelect on a value that is not a sequence *)

Lemma isValidFilter_list c l :
  value c = FvList l → isValidFilter c = true → In (operator c) ["in"; "notIn"; "all"] →
  l ≠ [].
Proof.
  unfold isValidFilter. intros Hv Hvalid Hop ->. rewrite Hv in Hvalid.
  destruct (_ || _); [discriminate |].
  simpl in Hop. destruct Hop as [E | [E | [E | []]]];
    rewrite <- E in Hvalid; simpl in Hvalid; discriminate.
Qed.

(** C3 (as amended). For a valid MultiSelect condition and a record whose
    value at the field key is not a sequence, the dispatcher passes the empty
    list to the matcher: [in] and [all] give non-match, [notIn] gives match,
    and nothing is raised; the matcher itself answers [false] to a value that
    is not a sequence, whatever the operator. *)
Theorem multiselect_on_non_sequence record c fd l :
  type fd = FieldType.MultiSelect →
  isArray (getNestedValue H record (fieldKey c)) = false →
  value c = FvList l →
  isValidFilter c = true →
  In (operator c) ["in"; "notIn"; "all"] →
  matchCondition H record c fd = Ret (Str.eqb (operator c) "notIn")
  ∧ ∀ values op, isArray values = false → matchMultiSelect values (value c) op = Ret false.
Proof.
  intros Ht Hraw Hv Hvalid Hop. split.
  - pose proof (isValidFilter_list c l Hv Hvalid Hop) as Hl.
    rewrite (matchCondition_MultiSelect record c fd Ht). unfold rawValue.
    rewrite Hraw, Hv. unfold matchMultiSelect. simpl.
    destruct l as [| x l]; [congruence |]. simpl.
    assert (Hnone : existsb (λ _ : string, false) l = false).
    { apply existsb_false. reflexivity. }
    simpl in Hop. destruct Hop as [<- | [<- | [<- | []]]]; simpl; now rewrite ?Hnone.
  - intros values op Hvalues. unfold matchMultiSelect. unfold isArray in Hvalues.
    now destruct (arrayElements values).
Qed.

(** *** Operators outside the operator set of the field type *)



(** The Amount and Boolean matchers take no operator. *)
Lemma amount_boolean_ignore_operator record c fd op :
  type fd = FieldType.Amount ∨ type fd = FieldType.Boolean →
  matchCondition H record (withOperator op c) fd = matchCondition H record c fd.
Proof.
  intros [Ht | Ht].
  - now rewrite !(matchCondition_Amount _ _ fd Ht).
  - now rewrite !(matchCondition_Boolean _ _ fd Ht).
Qed.

(** *** Boolean fields and absent values *)

Lemma split_nonempty sep s : ∃ h t, Str.split sep s = h :: t.
Proof.
  destruct s as [| a s]; simpl; [eauto |].
  destruct (Ascii.eqb a sep); [eauto |]. destruct (Str.split sep s); eauto.
Qed.

Lemma getNestedValue_undefined keys :
  fold_left (getNestedValue_step H) keys JUndefined = JUndefined.
Proof. induction keys as [| k keys IH]; simpl; [reflexivity | exact IH]. Qed.

Lemma inheritedFromObject_None receiver k :
  inheritedName k = false → inheritedFromObject receiver k = None.
Proof.
  intros Hk. unfold inheritedFromObject. rewrite Hk.
  str_cases k "__proto__"; [| reflexivity].
  subst k. discriminate.
Qed.

(** A path whose first segment is neither a key of the record nor a name
    that the record inherits reads as [undefined]. *)
Lemma getNestedValue_missing record path :
  (∀ h t, Str.split "." path = h :: t → assoc h record = None ∧ inheritedName h = false) →
  getNestedValue H record path = JUndefined.
Proof.
  intros Hmiss. unfold getNestedValue.
  destruct (split_nonempty "." path) as (h & t & Hs). rewrite Hs. simpl.
  destruct (Hmiss h t Hs) as [Hown Hinh].
  unfold getNestedValue_step at 2, hasProperty. simpl.
  rewrite Hown, (inheritedFromObject_None _ _ Hinh). simpl.
  apply getNestedValue_undefined.
Qed.

(** C10 (as amended). For a Boolean field, the condition compares its
    value with the truth value of what the traversal of the path reads in the
    record.  A record at which the traversal reads nothing is read as
    [false]: the condition with value [false] matches it and the condition
    with value [true] does not.  The traversal reads nothing, in particular,
    when the first segment of the path is neither a key of the record nor a
    name that the record inherits. *)
Theorem boolean_absent_reads_false record c fd b :
  type fd = FieldType.Boolean →
  value c = FvBool b →
  matchCondition H record c fd
  = Ret (Bool.eqb (ToBoolean (readPath H record (fieldKey c))) b)
  ∧ (readPath H record (fieldKey c) = JUndefined →
     matchCondition H record c fd = Ret (negb b))
  ∧ ((∀ h t, Str.split "." (fieldKey c) = h :: t →
        assoc h record = None ∧ inheritedName h = false) →
     readPath H record (fieldKey c) = JUndefined).
Proof.
  intros Ht Hv.
  assert (Hm : matchCondition H record c fd
               = Ret (Bool.eqb (ToBoolean (readPath H record (fieldKey c))) b)).
  { rewrite (matchCondition_Boolean record c fd Ht). unfold matchBoolean, rawValue.
    now rewrite Hv, getNestedValue_readPath. }
  split; [exact Hm |]. split.
  - intros Hraw. rewrite Hm, Hraw. now destruct b.
  - intros Hmiss. rewrite <- getNestedValue_readPath. now apply getNestedValue_missing.
Qed.

End Matchers.

(* ------------------------------------------------------------------ *)
(** ** The properties on the sample records *)



Lemma identity_without_valid_condition_on_staff :
  (∀ c, In c Scenario.incomplete → isValidFilter c = false)
  ∧ Scenario.run Scenario.staff Scenario.incomplete Scenario.schema = Ret Scenario.staff.
Proof.
  assert (Hinv : ∀ c, In c Scenario.incomplete → isValidFilter c = false).
  { intros c Hc. simpl in Hc.
    destruct Hc as [<- | [<- | [<- | [<- | [<- | []]]]]]; reflexivity. }
  split; [exact Hinv |].
  exact (applyFilters_identity_without_valid_condition SampleHost.host
           Scenario.staff Scenario.incomplete Scenario.schema Hinv).
Defined.

Lemma validator_gating_on_staff :
  (fieldKey Scenario.unset = "" ∨ operator Scenario.unset = "")
  ∧ isValidFilter Scenario.unset = false
  ∧ Scenario.run Scenario.staff
      ([Scenario.inSales] ++ Scenario.unset :: [Scenario.active]) Scenario.schema
    = Scenario.run Scenario.staff ([Scenario.inSales] ++ [Scenario.active]) Scenario.schema.
Proof.
  assert (Hunset : fieldKey Scenario.unset = "" ∨ operator Scenario.unset = "").
  { left. reflexivity. }
  split; [exact Hunset |].
  exact (validator_gating SampleHost.host Scenario.staff
           [Scenario.inSales] [Scenario.active] Scenario.unset Scenario.schema Hunset).
Defined.


(** *** C6: a new condition that makes the pass raise *)


Example unknown_field_key_on_staff :
  hasDefinition Scenario.schema "ghost" = false
  ∧ groupSatisfied SampleHost.host
      (Map_new (map (λ fd, (key fd, fd)) Scenario.schema)) Scenario.alice
      ("ghost", [Scenario.ghost]) = Ret true
  ∧ Scenario.run Scenario.staff [Scenario.ghost; Scenario.nameStartsWithB] Scenario.schema
    = Scenario.run Scenario.staff
        (List.filter (λ c, hasDefinition Scenario.schema (fieldKey c))
           [Scenario.ghost; Scenario.nameStartsWithB])
        Scenario.schema.
Proof.
  assert (Hghost : hasDefinition Scenario.schema "ghost" = false) by reflexivity.
  split; [exact Hghost |]. split.
  - exact (groupSatisfied_undefined SampleHost.host Scenario.schema Scenario.alice
             "ghost" [Scenario.ghost] Hghost).
  - apply applyFilters_drop_undefined.
    intros c Hc _ _. simpl in Hc. destruct Hc as [<- | [<- | []]]; reflexivity.
Qed.

Example unknown_inherited_field_key_on_staff :
  Scenario.run Scenario.staff [Scenario.ghostConstructor] Scenario.schema = Throw pushError
  ∧ Scenario.run Scenario.staff
      [Scenario.cond "toString" "is" (FvStr "x"); Scenario.nameStartsWithB] Scenario.schema
    = Throw pushError
  ∧ Scenario.run Scenario.staff [Scenario.nameStartsWithB] Scenario.schema
    = Ret [Scenario.bob].
Proof. repeat split; vm_compute; reflexivity. Qed.

Example nested_value_lookup :
  getNestedValue SampleHost.host Scenario.alice "address.city" = JStr "Paris"
  ∧ getNestedValue SampleHost.host Scenario.alice "skills.1" = JStr "SQL"
  ∧ getNestedValue SampleHost.host Scenario.alice "skills.length" = Scenario.num 2
  ∧ getNestedValue SampleHost.host Scenario.alice "name.length" = JUndefined
  ∧ getNestedValue SampleHost.host Scenario.alice "address.zip" = JUndefined
  ∧ getNestedValue SampleHost.host Scenario.alice "toString"
    = JIntrinsic (Method false "toString")
  ∧ getNestedValue SampleHost.host Scenario.alice "skills.__proto__.__proto__.__proto__"
    = JNull.
Proof. repeat split; vm_compute; reflexivity. Qed.

Example unknown_field_key_all_ghosts :
  Scenario.run Scenario.staff [Scenario.ghost] Scenario.schema = Ret Scenario.staff.
Proof. vm_compute. reflexivity. Qed.

(** *** C2: the select operators compare exactly *)

Lemma select_operators_are_case_sensitive :
  Str.toLowerCase "Sales" = Str.toLowerCase "sales"
  ∧ matchSingleSelect "sales" (FvStr "sales") "is" = Ret true
  ∧ matchSingleSelect "Sales" (FvStr "sales") "is" = Ret false
  ∧ matchCondition SampleHost.host Scenario.bob
      (Scenario.cond "department" "is" (FvStr "sales"))
      (Scenario.field "department" FieldType.SingleSelect) = Ret false
  ∧ Str.toLowerCase "React" = Str.toLowerCase "react"
  ∧ matchMultiSelect (JArr [JStr "react"]) (FvList ["react"]) "in" = Ret true
  ∧ matchMultiSelect (JArr [JStr "React"]) (FvList ["react"]) "in" = Ret false
  ∧ matchCondition SampleHost.host Scenario.alice
      (Scenario.cond "skills" "in" (FvList ["react"])) Scenario.skills = Ret false.
Proof. repeat split; vm_compute; reflexivity. Qed.

Lemma text_operators_ignore_case_on_alice :
  Str.toLowerCase "ALICE" = Str.toLowerCase "Alice"
  ∧ Str.toLowerCase "LIC" = Str.toLowerCase "lic"
  ∧ "contains" ≠ "regex"
  ∧ matchText SampleHost.host "ALICE" (FvStr "LIC") "contains"
    = matchText SampleHost.host "Alice" (FvStr "lic") "contains".
Proof.
  assert (Hv : Str.toLowerCase "ALICE" = Str.toLowerCase "Alice") by reflexivity.
  assert (Hf : Str.toLowerCase "LIC" = Str.toLowerCase "lic") by reflexivity.
  assert (Hop : "contains" ≠ "regex") by discriminate.
  repeat (split; [assumption |]).
  exact (text_operators_ignore_case SampleHost.host "ALICE" "Alice" "LIC" "lic" "contains"
           Hv Hf Hop).
Defined.

(** *** C3: [notIn] matches a value that is not a sequence *)

Lemma notIn_matches_non_sequence :
  isValidFilter Scenario.withoutGo = true
  ∧ getNestedValue SampleHost.host Scenario.carol "skills" = JStr "React"
  ∧ matchCondition SampleHost.host Scenario.carol Scenario.withoutGo Scenario.skills = Ret true
  ∧ Scenario.run [Scenario.carol] [Scenario.withoutGo] Scenario.schema = Ret [Scenario.carol]
  ∧ getNestedValue SampleHost.host [("name", JStr "Dan")] "skills" = JUndefined
  ∧ matchCondition SampleHost.host [("name", JStr "Dan")] Scenario.withoutGo Scenario.skills
    = Ret true.
Proof. repeat split; vm_compute; reflexivity. Qed.

Lemma multiselect_on_non_sequence_on_carol :
  type Scenario.skills = FieldType.MultiSelect
  ∧ isArray (getNestedValue SampleHost.host Scenario.carol (fieldKey Scenario.withoutGo)) = false
  ∧ value Scenario.withoutGo = FvList ["Go"]
  ∧ isValidFilter Scenario.withoutGo = true
  ∧ In (operator Scenario.withoutGo) ["in"; "notIn"; "all"]
  ∧ matchCondition SampleHost.host Scenario.carol Scenario.withoutGo Scenario.skills
    = Ret (Str.eqb (operator Scenario.withoutGo) "notIn")
  ∧ ∀ values op, isArray values = false →
      matchMultiSelect values (value Scenario.withoutGo) op = Ret false.
Proof.
  assert (Ht : type Scenario.skills = FieldType.MultiSelect) by reflexivity.
  assert (Hraw : isArray (getNestedValue SampleHost.host Scenario.carol (fieldKey Scenario.withoutGo)) = false)
    by reflexivity.
  assert (Hv : value Scenario.withoutGo = FvList ["Go"]) by reflexivity.
  assert (Hvalid : isValidFilter Scenario.withoutGo = true) by reflexivity.
  assert (Hop : In (operator Scenario.withoutGo) ["in"; "notIn"; "all"]).
  { simpl. right. left. reflexivity. }
  repeat (split; [assumption |]).
  exact (multiselect_on_non_sequence SampleHost.host Scenario.carol Scenario.withoutGo
           Scenario.skills ["Go"] Ht Hraw Hv Hvalid Hop).
Defined.

(** *** C4: the Amount and Boolean matchers do not look at the operator *)



(** The conversion of the record value comes before the matcher: on a
    value that cannot be converted it raises, whatever the operator. *)
Example unknown_operator_on_dave :
  ¬ In (operator Scenario.nameIs) (OPERATORS_BY_TYPE (type Scenario.name))
  ∧ convert SampleHost.host (type Scenario.name)
      (getNestedValue SampleHost.host Scenario.dave (fieldKey Scenario.nameIs))
    = Throw toPrimitiveError
  ∧ matchCondition SampleHost.host Scenario.dave Scenario.nameIs Scenario.name
    = Throw toPrimitiveError.
Proof.
  split; [intros Hin; vm_compute in Hin; intuition discriminate |].
  split; vm_compute; reflexivity.
Qed.

(** *** C9: patterns on the sample host *)

Example regex_invalid_pattern :
  RegExp_new SampleHost.host "(" "i" = Throw (SyntaxError "Invalid regular expression")
  ∧ matchText SampleHost.host "Alice" (FvStr "(") "regex" = Ret false.
Proof. split; vm_compute; reflexivity. Qed.

Example regex_valid_pattern :
  matchText SampleHost.host "Alice" (FvStr "LIC") "regex" = Ret true
  ∧ matchText SampleHost.host "Alice" (FvStr "bob") "regex" = Ret false.
Proof. split; vm_compute; reflexivity. Qed.

Lemma regex_operator_on_alice :
  matchText SampleHost.host "Alice" (FvStr "LIC") "regex" = Ret true
  ∧ (∀ s, FvBool true ≠ FvStr s)
  ∧ ∃ message,
      matchText SampleHost.host "Alice" (FvBool true) "regex" = Throw (TypeError message).
Proof.
  destruct (regex_operator_catches_pattern_errors SampleHost.host "Alice" "LIC")
    as [Hstring Hother].
  assert (Hfv : ∀ s, FvBool true ≠ FvStr s) by discriminate.
  split; [exact Hstring |]. split; [exact Hfv |].
  exact (Hother (FvBool true) "regex" Hfv).
Defined.

(** *** C9: a condition value that is not a string *)

Lemma regex_on_a_number_value_raises :
  isValidFilter (Scenario.cond "name" "regex" (FvNum (SampleHost.number_of_Z 5))) = true
  ∧ matchText SampleHost.host "Alice" (FvNum (SampleHost.number_of_Z 5)) "regex"
    = Throw (TypeError "filterValue.toLowerCase is not a function")
  ∧ matchCondition SampleHost.host Scenario.alice
      (Scenario.cond "name" "regex" (FvNum (SampleHost.number_of_Z 5))) Scenario.name
    = Throw (TypeError "filterValue.toLowerCase is not a function")
  ∧ Scenario.run Scenario.staff
      [Scenario.cond "name" "regex" (FvNum (SampleHost.number_of_Z 5))] Scenario.schema
    = Throw (TypeError "filterValue.toLowerCase is not a function")
  ∧ matchText SampleHost.host "Alice" (FvList ["a"]) "regex"
    = Throw (TypeError "filterValue.toLowerCase is not a function").
Proof. repeat split; vm_compute; reflexivity. Qed.

(** *** C10: a Boolean field the record does not have *)

Lemma boolean_absent_on_alice :
  type Scenario.remote = FieldType.Boolean
  ∧ value (Scenario.isRemote false) = FvBool false
  ∧ (matchCondition SampleHost.host Scenario.alice (Scenario.isRemote false) Scenario.remote
     = Ret (Bool.eqb
              (ToBoolean
                 (readPath SampleHost.host Scenario.alice
                    (fieldKey (Scenario.isRemote false))))
              false)
     ∧ (readPath SampleHost.host Scenario.alice (fieldKey (Scenario.isRemote false))
        = JUndefined →
        matchCondition SampleHost.host Scenario.alice (Scenario.isRemote false)
          Scenario.remote = Ret (negb false))
     ∧ ((∀ h t, Str.split "." (fieldKey (Scenario.isRemote false)) = h :: t →
           assoc h Scenario.alice = None ∧ inheritedName h = false) →
        readPath SampleHost.host Scenario.alice (fieldKey (Scenario.isRemote false))
        = JUndefined))
  ∧ readPath SampleHost.host Scenario.alice "remote" = JUndefined
  ∧ matchCondition SampleHost.host Scenario.alice (Scenario.isRemote false) Scenario.remote
    = Ret true
  ∧ matchCondition SampleHost.host Scenario.alice (Scenario.isRemote true) Scenario.remote
    = Ret false.
Proof.
  assert (Ht : type Scenario.remote = FieldType.Boolean) by reflexivity.
  assert (Hv : value (Scenario.isRemote false) = FvBool false) by reflexivity.
  split; [exact Ht |]. split; [exact Hv |]. split.
  - exact (boolean_absent_reads_false SampleHost.host Scenario.alice (Scenario.isRemote false)
             Scenario.remote false Ht Hv).
  - repeat split; vm_compute; reflexivity.
Defined.

(** *** C10: a Boolean field with the name of an inherited property *)

Lemma boolean_field_with_inherited_name :
  assoc "constructor" Scenario.alice = None
  ∧ getNestedValue SampleHost.host Scenario.alice "constructor"
    = JIntrinsic (Method false "constructor")
  ∧ matchCondition SampleHost.host Scenario.alice
      (Scenario.cond "constructor" "is" (FvBool false))
      (Scenario.field "constructor" FieldType.Boolean) = Ret false
  ∧ matchCondition SampleHost.host Scenario.alice
      (Scenario.cond "constructor" "is" (FvBool true))
      (Scenario.field "constructor" FieldType.Boolean) = Ret true
  ∧ assoc "address.valueOf" Scenario.alice = None
  ∧ getNestedValue SampleHost.host Scenario.alice "address.valueOf"
    = JIntrinsic (Method false "valueOf")
  ∧ isValidFilter (Scenario.cond "address.valueOf" "is" (FvBool false)) = true
  ∧ Scenario.run Scenario.staff [Scenario.cond "address.valueOf" "is" (FvBool false)]
      (Scenario.field "address.valueOf" FieldType.Boolean :: Scenario.schema)
    = Ret [Scenario.carol].
Proof. repeat split; vm_compute; reflexivity. Qed.

Example boolean_absent_filter_pass :
  isValidFilter (Scenario.isRemote false) = true
  ∧ Scenario.run Scenario.staff [Scenario.isRemote false] (Scenario.remote :: Scenario.schema)
    = Ret Scenario.staff
  ∧ Scenario.run Scenario.staff [Scenario.isRemote true] (Scenario.remote :: Scenario.schema)
    = Ret [].
Proof. repeat split; vm_compute; reflexivity. Qed.

(** *** C1: the filter pass on the sample records *)


(** *** C1: every group matches, and the pass raises *)


(** *** C1: a condition value of the wrong shape makes the pass raise *)

Example text_condition_with_number_value_raises :
  Scenario.run Scenario.staff
    [Scenario.cond "name" "contains" (FvNum (SampleHost.number_of_Z 5))] Scenario.schema
  = Throw (TypeError "filterValue.toLowerCase is not a function").
Proof. vm_compute. reflexivity. Qed.

Example select_condition_with_string_value_raises :
  Scenario.run Scenario.staff [Scenario.cond "skills" "in" (FvStr "React")] Scenario.schema
  = Throw (TypeError "filterValues.some is not a function").
Proof. vm_compute. reflexivity. Qed.

(* ------------------------------------------------------------------ *)
(** ** Further properties of the filter pass *)

Section PassProperties.
Context (H : Host).
Implicit Types (data : list Record) (record : Record) (fds : list FieldDefinition).
Implicit Types (cs : list FilterCondition) (c : FilterCondition).

Lemma filterA_fixed {A} (f : A → result bool) (l out : list A) :
  filterA f l = Ret out → filterA f out = Ret out.
Proof.
  revert out. induction l as [| x l IH]; simpl; intros out Hl.
  - injection Hl as <-. reflexivity.
  - destruct (f x) as [b | e] eqn:Ex; simpl in Hl; [| discriminate].
    destruct (filterA f l) as [rest | e] eqn:El; simpl in Hl; [| discriminate].
    injection Hl as <-. specialize (IH rest eq_refl).
    destruct b; [| exact IH]. simpl. now rewrite Ex, IH.
Qed.

Lemma filterA_app {A} (f : A → result bool) (l1 l2 : list A) :
  filterA f (l1 ++ l2) = (o1 ← filterA f l1; o2 ← filterA f l2; Ret (o1 ++ o2)).
Proof.
  induction l1 as [| x l1 IH]; simpl.
  - destruct (filterA f l2); reflexivity.
  - destruct (f x) as [b | e]; simpl; [| reflexivity]. rewrite IH.
    destruct (filterA f l1) as [o1 | e]; simpl; [| reflexivity].
    destruct (filterA f l2) as [o2 | e]; simpl; [| reflexivity].
    now destruct b.
Qed.

Lemma every_ext {A} (f g : A → result bool) (l : list A) :
  (∀ x, In x l → f x = g x) → every f l = every g l.
Proof.
  induction l as [| x l IH]; simpl; intros Hfg; [reflexivity |].
  rewrite (Hfg x (or_introl eq_refl)), IH; [reflexivity |].
  intros y Hy. apply Hfg. now right.
Qed.

(** X1. Filtering is idempotent: a result of [applyFilters], filtered again
    by the same conditions under the same schema, comes back unchanged. *)
Theorem applyFilters_idempotent data cs fds out :
  applyFilters H data cs fds = Ret out → applyFilters H out cs fds = Ret out.
Proof.
  rewrite !applyFilters_pass. destruct (existsb _ _); [discriminate |].
  apply filterA_fixed.
Qed.

(** X2. The result of [applyFilters] is a subsequence of the dataset: no
    record is added, repeated or moved. *)
Theorem applyFilters_sublist data cs fds out :
  applyFilters H data cs fds = Ret out → sublist out data.
Proof.
  intros Ho. apply applyFilters_ret in Ho. subst out.
  induction data as [| record data IH]; simpl; [constructor |].
  destruct (keepsRecord H fds _ record); now constructor.
Qed.

(** X3. [applyFilters] works record by record: on two datasets put end to
    end it gives the two results put end to end, and it raises what the
    first raising part raises. *)
Theorem applyFilters_app d1 d2 cs fds :
  applyFilters H (d1 ++ d2) cs fds
  = (o1 ← applyFilters H d1 cs fds; o2 ← applyFilters H d2 cs fds; Ret (o1 ++ o2)).
Proof.
  rewrite !applyFilters_pass. destruct (existsb _ _); [reflexivity |].
  apply filterA_app.
Qed.







(** *** Conditions that cannot raise, conditions without a definition *)


(** X7. A valid condition on a field key without a definition is
    ignored, provided the key is not a name that a plain object inherits:
    leaving such conditions out does not change the outcome. *)
Theorem undefined_field_keys_are_ignored data cs fds :
  (∀ c, In c cs → isValidFilter c = true → hasDefinition fds (fieldKey c) = false →
        inheritedName (fieldKey c) = false) →
  applyFilters H data cs fds
  = applyFilters H data (List.filter (λ c, hasDefinition fds (fieldKey c)) cs) fds.
Proof. apply (applyFilters_drop_undefined H). Qed.

(** *** The schema *)

Lemma applyFilters_same_lookup data cs fds1 fds2 :
  (∀ k, lookupField fds1 k = lookupField fds2 k) →
  applyFilters H data cs fds1 = applyFilters H data cs fds2.
Proof.
  intros Hsame. rewrite !applyFilters_pass. destruct (existsb _ _); [reflexivity |].
  apply filterA_ext. intros record _. apply every_ext. intros [k g] _.
  now rewrite !groupSatisfied_lookup, Hsame.
Qed.

Lemma lookupField_shadowed fds1 fds2 fds3 fd fd' k :
  key fd = key fd' →
  lookupField (fds1 ++ fd :: fds2 ++ fd' :: fds3) k
  = lookupField (fds1 ++ fds2 ++ fd' :: fds3) k.
Proof.
  intros Hkey. unfold lookupField. rewrite !List.filter_app. simpl.
  rewrite !List.filter_app. simpl. rewrite Hkey.
  destruct (Str.eqb (key fd') k); [| reflexivity].
  rewrite (app_assoc _ _ (fd' :: _)), !last_app_cons.
  rewrite last_cons, last_app_cons, last_cons.
  now destruct (last (List.filter _ fds3)).
Qed.

(** X8. When two definitions of the schema have the same key, the later
    one is the one the filter pass uses: the earlier one can be removed
    without changing the outcome. *)
Theorem schema_later_definition_wins data cs fds1 fds2 fds3 fd fd' :
  key fd = key fd' →
  applyFilters H data cs (fds1 ++ fd :: fds2 ++ fd' :: fds3)
  = applyFilters H data cs (fds1 ++ fds2 ++ fd' :: fds3).
Proof.
  intros Hkey. apply applyFilters_same_lookup. intros k.
  now apply lookupField_shadowed.
Qed.

(** *** Filtering in two steps *)





(** *** What the pass raises *)

Lemma JsData_induction (P : JsData → Prop) :
  P JUndefined → P JNull → (∀ b, P (JBool b)) → (∀ n, P (JNum n)) → (∀ s, P (JStr s)) →
  (∀ elems, Forall P elems → P (JArr elems)) →
  (∀ props, Forall (λ p, P p.2) props → P (JObj props)) →
  ∀ d, P d.
Proof.
  intros HU HN HB HNum HS HA HO. fix IH 1.
  intros [| | b | n | s | elems | props];
    [exact HU | exact HN | apply HB | apply HNum | apply HS | apply HA | apply HO].
  - induction elems as [| e elems IHl]; constructor; [apply IH | exact IHl].
  - induction props as [| [k v] props IHl]; constructor; [apply IH | exact IHl].
Qed.

Lemma mapA_throw {A B} (f : A → result B) (l : list A) e :
  mapA f l = Throw e → ∃ x, In x l ∧ f x = Throw e.
Proof.
  induction l as [| x l IH]; simpl; [discriminate |].
  destruct (f x) as [y | e'] eqn:Ex; simpl; intros Hl.
  - destruct (mapA f l) as [rest | e''] eqn:El; simpl in Hl; [discriminate |].
    injection Hl as ->. destruct (IH eq_refl) as (z & Hz & Hf). exists z. auto.
  - exists x. split; [now left | congruence].
Qed.

Lemma DataToString_raises (d : JsData) e :
  DataToString H d = Throw e → e = toPrimitiveError.
Proof.
  revert e. induction d as [| | b | n | s | elems IH | props _] using JsData_induction;
    intros e He; try discriminate.
  - simpl in He.
    destruct (mapA _ elems) as [parts | e'] eqn:Em; simpl in He; [discriminate |].
    injection He as ->. apply mapA_throw in Em as (x & Hx & Hf).
    rewrite Forall_forall in IH. apply list_elem_of_In in Hx.
    destruct x; try discriminate; now apply (IH _ Hx).
  - simpl in He. destruct (hasOwnToString props); [| discriminate]. congruence.
Qed.

Lemma ToString_raises (v : JsValue) e : ToString H v = Throw e → e = toPrimitiveError.
Proof.
  destruct v as [d | [| | ofArray name]]; simpl; try discriminate.
  apply DataToString_raises.
Qed.

Lemma ToNumber_raises (v : JsValue) e : ToNumber H v = Throw e → e = toPrimitiveError.
Proof.
  destruct v as [[| | b | n | s | elems | props] | [| | ofArray name]]; simpl;
    try discriminate.
  - destruct (mapA _ elems) as [parts | e'] eqn:Em; simpl; [discriminate |].
    intros [= <-]. apply (DataToString_raises (JArr elems)). simpl. now rewrite Em.
  - destruct (hasOwnToString props); [| discriminate]. congruence.
Qed.

Ltac raises_TypeError :=
  repeat (simpl in *;
          match goal with
          | Hx : Throw _ = Throw _ |- _ => injection Hx as <-
          | Hx : Ret _ = Throw _ |- _ => discriminate Hx
          | Hx : context [match ?x with _ => _ end] |- _ => destruct x eqn:?
          end);
  eauto.

Ltac conversion_or_matcher He convert_raises :=
  match type of He with
  | context [mbind _ ?m] =>
      let Em := fresh "Em" in
      destruct m eqn:Em; simpl in He;
      [| injection He as <-; apply convert_raises in Em; rewrite Em;
         unfold toPrimitiveError; eauto]
  end.

Lemma matchCondition_raises_TypeError record c fd e :
  matchCondition H record c fd = Throw e → ∃ message, e = TypeError message.
Proof.
  unfold matchCondition. intros He.
  destruct (Str.eqb (type fd) FieldType.Text).
  { conversion_or_matcher He ToString_raises.
    unfold matchText, try_catch, readOf in He. raises_TypeError. }
  destruct (Str.eqb (type fd) FieldType.Number).
  { conversion_or_matcher He ToNumber_raises.
    unfold matchNumber, get_min, get_max, readOf in He. raises_TypeError. }
  destruct (Str.eqb (type fd) FieldType.Date).
  { conversion_or_matcher He ToString_raises.
    unfold matchDate, get_start, get_end, readOf in He. raises_TypeError. }
  destruct (Str.eqb (type fd) FieldType.Amount).
  { conversion_or_matcher He ToNumber_raises.
    unfold matchAmountRange, get_min, get_max, readOf in He. raises_TypeError. }
  destruct (Str.eqb (type fd) FieldType.SingleSelect).
  { conversion_or_matcher He ToString_raises.
    unfold matchSingleSelect in He. raises_TypeError. }
  destruct (Str.eqb (type fd) FieldType.MultiSelect).
  { unfold matchMultiSelect, call_some, call_every, get_length, readOf in He.
    raises_TypeError. }
  destruct (Str.eqb (type fd) FieldType.Boolean); unfold matchBoolean in He; discriminate.
Qed.

(** X10. Whatever the inputs, [applyFilters] raises nothing but a
    [TypeError]: the [SyntaxError] of a pattern that does not compile never
    leaves the pass. *)
Theorem applyFilters_raises_only_TypeError data cs fds e :
  applyFilters H data cs fds = Throw e → ∃ message, e = TypeError message.
Proof.
  intros He. apply applyFilters_throw in He
    as [[-> _] | (record & c & fd & _ & _ & _ & Hm)].
  - unfold pushError. eauto.
  - now apply matchCondition_raises_TypeError in Hm.
Qed.

End PassProperties.

(* ------------------------------------------------------------------ *)
(** ** Further properties of the matchers *)

Lemma is_nan_Prim2SF (n : float) :
  PrimFloat.is_nan n = false → Prim2SF n ≠ S754_nan.
Proof.
  unfold PrimFloat.is_nan. rewrite FloatAxioms.eqb_spec. intros Hn Hnan.
  rewrite Hnan in Hn. discriminate.
Qed.

Lemma leb_neg_infinity (n : float) :
  PrimFloat.is_nan n = false → PrimFloat.leb PrimFloat.neg_infinity n = true.
Proof.
  intros Hn. apply is_nan_Prim2SF in Hn. rewrite FloatAxioms.leb_spec.
  change (Prim2SF PrimFloat.neg_infinity) with (S754_infinity true).
  destruct (Prim2SF n) as [s | s | | s m e]; try reflexivity; [now destruct s | congruence].
Qed.

Lemma leb_infinity (n : float) :
  PrimFloat.is_nan n = false → PrimFloat.leb n PrimFloat.infinity = true.
Proof.
  intros Hn. apply is_nan_Prim2SF in Hn. rewrite FloatAxioms.leb_spec.
  change (Prim2SF PrimFloat.infinity) with (S754_infinity false).
  destruct (Prim2SF n) as [s | s | | s m e]; try reflexivity; [now destruct s | congruence].
Qed.

Lemma split_app (p q : string) :
  Str.split "." (p +:+ "." +:+ q) = Str.split "." p ++ Str.split "." q.
Proof.
  induction p as [| a p IH]; simpl; [reflexivity |].
  destruct (Ascii.eqb a "."); simpl.
  - f_equal. exact IH.
  - rewrite IH. destruct (split_nonempty "." p) as (h & t & ->). reflexivity.
Qed.

Section MatcherProperties.
Context (H : Host).
Implicit Types (record : Record) (c : FilterCondition) (fd : FieldDefinition).

(** X11. A record value that converts to the number NaN, in particular
    an absent one, matches no condition of a Number or Amount field,
    whatever the operator and the condition value: neither [eq] nor [neq],
    and without raising. *)
Theorem not_a_number_never_matches record c fd (number : float) :
  type fd = FieldType.Number ∨ type fd = FieldType.Amount →
  ToNumber H (getNestedValue H record (fieldKey c)) = Ret number →
  PrimFloat.is_nan number = true →
  matchCondition H record c fd = Ret false.
Proof.
  intros [Ht | Ht] Hnum Hnan.
  - rewrite (matchCondition_Number H record c fd Ht), Hnum. simpl.
    unfold matchNumber. now rewrite Hnan.
  - rewrite (matchCondition_Amount H record c fd Ht), Hnum. simpl.
    unfold matchAmountRange. now rewrite Hnan.
Qed.

(** X12. The operator [numberBetween] of a Number field is the range test
    of an Amount field: the same condition gives the same outcome under a
    Number definition and under an Amount definition. *)
Theorem numberBetween_is_amount_range record c fdN fdA :
  type fdN = FieldType.Number → type fdA = FieldType.Amount →
  operator c = "numberBetween" →
  matchCondition H record c fdN = matchCondition H record c fdA.
Proof.
  intros HN HA Hop.
  rewrite (matchCondition_Number H record c fdN HN), (matchCondition_Amount H record c fdA HA).
  destruct (ToNumber H _) as [number | e]; [| reflexivity]. simpl.
  unfold matchNumber, matchAmountRange. now rewrite Hop.
Qed.

(** X13. An empty bound of a range is no bound: on a number, the range
    with two empty bounds accepts it, and a range with one empty bound is
    the comparison with the other bound. *)
Theorem empty_bound_is_unbounded (n mn mx : float) :
  PrimFloat.is_nan n = false →
  matchAmountRange n (FvNumberRange EmptyStr EmptyStr) = Ret true
  ∧ matchAmountRange n (FvNumberRange (NumVal mn) EmptyStr) = Ret (num_ge n mn)
  ∧ matchAmountRange n (FvNumberRange EmptyStr (NumVal mx)) = Ret (num_le n mx).
Proof.
  intros Hn. unfold matchAmountRange. rewrite Hn. simpl. unfold num_ge, num_le.
  rewrite (leb_neg_infinity n Hn), (leb_infinity n Hn).
  split; [reflexivity |]. split; [now rewrite andb_true_r | reflexivity].
Qed.

(** X14. The relative date operators need no value: a condition with a
    field key and one of these operators is valid whatever its value, and
    the date matcher gives one and the same answer for every value,
    [undefined] and [null] included, without raising. *)
Theorem relative_date_operators_need_no_value op :
  In op ["last7days"; "last30days"; "last90days"] →
  (∀ c, fieldKey c ≠ "" → operator c = op → isValidFilter c = true)
  ∧ ∀ v, ∃ b, ∀ fv, matchDate H v fv op = Ret b.
Proof.
  intros Hop. split.
  - intros c Hk Hc. unfold isValidFilter. rewrite Hc.
    apply Str_eqb_neq in Hk. rewrite Hk.
    simpl in Hop. destruct Hop as [<- | [<- | [<- | []]]]; reflexivity.
  - intros v. unfold matchDate.
    destruct (negb (isValid H (dayjs H v))); [now exists false |].
    simpl in Hop. destruct Hop as [<- | [<- | [<- | []]]]; simpl; eauto.
Qed.

(** X15. Paths compose: reading [p.q] from a record is reading [q] from
    what [p] reads.  When [p] reads an object, the result is what
    [getNestedValue] reads at [q] in that object; when it reads nothing, or
    a value that is not an object, the result is [undefined]. *)
Theorem getNestedValue_compose record p q :
  getNestedValue H record (p +:+ "." +:+ q)
  = fold_left (getNestedValue_step H) (Str.split "." q) (getNestedValue H record p)
  ∧ (∀ inner, getNestedValue H record p = JObj inner →
       getNestedValue H record (p +:+ "." +:+ q) = getNestedValue H inner q)
  ∧ (getNestedValue H record p = JNull ∨ typeof (getNestedValue H record p) ≠ "object" →
       getNestedValue H record (p +:+ "." +:+ q) = JUndefined).
Proof.
  assert (Hc : getNestedValue H record (p +:+ "." +:+ q)
               = fold_left (getNestedValue_step H) (Str.split "." q)
                   (getNestedValue H record p)).
  { unfold getNestedValue. now rewrite split_app, fold_left_app. }
  split; [exact Hc |]. split.
  - intros inner Hp. rewrite Hc, Hp. reflexivity.
  - intros Hp. rewrite Hc.
    destruct (split_nonempty "." q) as (h & t & ->). simpl.
    replace (getNestedValue_step H (getNestedValue H record p) h) with (JData JUndefined);
      [apply getNestedValue_undefined |].
    unfold getNestedValue_step.
    destruct Hp as [-> | Hp]; [reflexivity |].
    apply Str_eqb_neq in Hp. rewrite Hp. now rewrite andb_false_r.
Qed.

(** X16. The picker of a single date shows the bound that the date matcher
    uses.  For [before] and [after], on a range with any two ends, the
    matcher compares the record's date with the date that [dateValue] gives,
    and accepts every valid date when [dateValue] gives none; and the range
    that [onChange] stores for a picked date is read back as that date. *)
Theorem single_date_picker_shows_the_bound v s e op :
  op = "before" ∨ op = "after" →
  ∃ shown,
    SingleDateInput.dateValue (FvDateRange s e) op = Ret shown
    ∧ matchDate H v (FvDateRange s e) op
      = Ret (isValid H (dayjs H v)
             && match truthyString shown with
                | Some d =>
                    if Str.eqb op "before" then isBefore H (dayjs H v) (dayjs H d) day
                    else isAfter H (dayjs H v) (dayjs H d) day
                | None => true
                end)
    ∧ ∀ picked, SingleDateInput.dateValue (SingleDateInput.onChange op picked) op
                = Ret (Some picked).
Proof.
  intros [-> | ->]; unfold SingleDateInput.dateValue, SingleDateInput.onChange, matchDate;
    simpl; destruct (isValid H (dayjs H v)); simpl.
  all: unfold truthyString.
  all: destruct (Str.eqb e "") eqn:Ee, (Str.eqb s "") eqn:Es; simpl.
  all: eexists; (split; [reflexivity |]); simpl; rewrite ?Ee, ?Es; simpl.
  all: (split; [reflexivity |]).
  all: intros picked; destruct (Str.eqb picked "") eqn:Ep; simpl; rewrite ?Ep;
    try reflexivity.
  all: apply Str_eqb_eq in Ep; now subst picked.
Qed.

End MatcherProperties.

(* ------------------------------------------------------------------ *)
(** ** The editor: default values, the hook, the row handlers, the badge *)

Lemma OPERATORS_BY_TYPE_known (t : string) :
  OPERATORS_BY_TYPE t ≠ [] →
  In t [FieldType.Text; FieldType.Number; FieldType.Date; FieldType.Amount;
        FieldType.SingleSelect; FieldType.MultiSelect; FieldType.Boolean].
Proof.
  unfold OPERATORS_BY_TYPE. intros Hops. simpl.
  repeat match type of Hops with
         | context [Str.eqb t ?x] =>
             let E := fresh "E" in
             destruct (Str.eqb t x) eqn:E; [apply Str_eqb_eq in E; symmetry in E; tauto |]
         end.
  exfalso. now apply Hops.
Qed.



Lemma findField_Some (fields : list FieldDefinition) (k : string) (fd : FieldDefinition) :
  FilterRow.findField fields k = Some fd → In fd fields ∧ key fd = k.
Proof.
  unfold FilterRow.findField. intros Hf. apply List.find_some in Hf as [Hin Hk].
  split; [exact Hin | now apply Str_eqb_eq].
Qed.

Lemma updateFilter_absent (i : string) patch (cs : list FilterCondition) :
  (∀ c, In c cs → id c ≠ i) → UseFilters.updateFilter i patch cs = cs.
Proof.
  unfold UseFilters.updateFilter. induction cs as [| c cs IH]; simpl; intros Hne;
    [reflexivity |].
  pose proof (Hne c (or_introl eq_refl)) as Hc. apply Str_eqb_neq in Hc. rewrite Hc.
  f_equal. apply IH. intros c' Hc'. apply Hne. now right.
Qed.

Lemma updateFilter_ids (i : string) patch (cs : list FilterCondition) :
  UseFilters.p_id patch = None →
  map id (UseFilters.updateFilter i patch cs) = map id cs.
Proof.
  intros Hp. unfold UseFilters.updateFilter. rewrite map_map. apply map_ext.
  intros c. destruct (Str.eqb (id c) i); [| reflexivity].
  unfold UseFilters.spread. simpl. now rewrite Hp.
Qed.

Lemma filter_length_le {A} (p q : A → bool) (l : list A) :
  (∀ x, In x l → p x = true → q x = true) →
  (length (List.filter p l) ≤ length (List.filter q l))%nat.
Proof. intros Hpq. apply sublist_length. now apply filter_sublist. Qed.

Section Editor.
Context (H : Host).
Implicit Types (fields : list FieldDefinition) (cs : list FilterCondition).
Implicit Types (c : FilterCondition) (fd : FieldDefinition) (record : Record).

Lemma findField_unique_keys fields k :
  NoDup (map key fields) → FilterRow.findField fields k = lookupField fields k.
Proof.
  induction fields as [| fd rest IH]; intros Hnd; [reflexivity |].
  simpl in Hnd. apply NoDup_cons in Hnd as [Hnotin Hnd].
  rewrite list_elem_of_In in Hnotin. specialize (IH Hnd).
  unfold FilterRow.findField, lookupField in *. simpl.
  destruct (Str.eqb (key fd) k) eqn:Ek; [| exact IH].
  rewrite (filter_none _ rest); [reflexivity |].
  intros x Hx. apply Str_eqb_neq. intros Hxk. apply Hnotin.
  apply Str_eqb_eq in Ek. rewrite Ek, <- Hxk. now apply in_map.
Qed.

(** X17. With a schema whose keys are all different, the row and the
    filter pass use the same definition of a field: [fields.find], which
    takes the first definition with the key, and the field map, which keeps
    the last one, agree; so the operators that the row offers are those of
    the type by which the pass evaluates the condition. *)
Theorem findField_is_lookupField fields k :
  NoDup (map key fields) →
  FilterRow.findField fields k = lookupField fields k
  ∧ ∀ selectedField fieldDef,
      FilterRow.findField fields k = Some selectedField →
      lookupField fields k = Some fieldDef →
      OPERATORS_BY_TYPE (type selectedField) = OPERATORS_BY_TYPE (type fieldDef).
Proof.
  intros Hnd. pose proof (findField_unique_keys fields k Hnd) as Hsame.
  split; [exact Hsame |]. intros selectedField fieldDef Hf Hl. congruence.
Qed.


(** X19. Choosing a field filters at once for a Number or a Boolean
    field only: the row that a change of field resets is a valid condition
    exactly when the field's type is Number (its value is 0) or Boolean (its
    value is [true]); for the other types it stays without effect until a
    value is given. *)
Theorem field_change_filters_at_once fields c k i patch fd :
  FilterRow.handleFieldChange fields c k = FilterRow.OnUpdate i patch →
  FilterRow.findField fields k = Some fd →
  k ≠ "" →
  isValidFilter (UseFilters.spread c patch)
  = Str.eqb (type fd) FieldType.Number || Str.eqb (type fd) FieldType.Boolean.
Proof.
  unfold FilterRow.handleFieldChange. intros Hh Hf Hk. rewrite Hf in Hh.
  generalize dependent (type fd). intros t Hh.
  destruct (OPERATORS_BY_TYPE t) as [| defaultOp ops] eqn:Eops; [discriminate |].
  injection Hh as <- <-. unfold isValidFilter. simpl.
  apply Str_eqb_neq in Hk. rewrite Hk. simpl.
  assert (Hops : OPERATORS_BY_TYPE t ≠ []) by now rewrite Eops.
  apply OPERATORS_BY_TYPE_known in Hops.
  known_type Hops; injection Eops as <- _; reflexivity.
Qed.

(** X20. Adding a row changes nothing yet: the list of conditions that
    [addFilter] gives has the same outcome under [applyFilters] as the list
    before, and the same count of active filters. *)
Theorem addFilter_is_neutral data cs fds newId :
  applyFilters H data (UseFilters.addFilter newId cs) fds = applyFilters H data cs fds
  ∧ activeFilterCount (UseFilters.addFilter newId cs) = activeFilterCount cs.
Proof.
  unfold applyFilters, activeFilterCount, UseFilters.addFilter.
  rewrite !List.filter_app. simpl. now rewrite !app_nil_r.
Qed.

(** X21. Removing the row that was just added gives the list back: when
    no row of the list has the new identifier, [removeFilter] after
    [addFilter] is the identity. *)
Theorem removeFilter_addFilter cs newId :
  (∀ c, In c cs → id c ≠ newId) →
  UseFilters.removeFilter newId (UseFilters.addFilter newId cs) = cs.
Proof.
  intros Hfresh. unfold UseFilters.removeFilter, UseFilters.addFilter.
  rewrite List.filter_app. simpl. rewrite Str_eqb_refl. simpl. rewrite app_nil_r.
  induction cs as [| c cs IH]; simpl; [reflexivity |].
  pose proof (Hfresh c (or_introl eq_refl)) as Hc. apply Str_eqb_neq in Hc. rewrite Hc.
  simpl. f_equal. apply IH. intros c' Hc'. apply Hfresh. now right.
Qed.

(** X22. With row identifiers that are all different, [updateFilter]
    changes the one row with the identifier, in place, and no other row. *)
Theorem updateFilter_touches_one_row cs (n : nat) c patch :
  NoDup (map id cs) →
  cs !! n = Some c →
  UseFilters.updateFilter (id c) patch cs = <[n := UseFilters.spread c patch]> cs.
Proof.
  revert n. induction cs as [| c0 cs IH]; intros n Hnd Hn; [discriminate |].
  simpl in Hnd. apply NoDup_cons in Hnd as [Hnotin Hnd].
  rewrite list_elem_of_In in Hnotin.
  destruct n as [| n]; simpl in Hn.
  - injection Hn as ->. unfold UseFilters.updateFilter. simpl. rewrite Str_eqb_refl.
    f_equal. apply updateFilter_absent. intros c' Hc' Hid. apply Hnotin.
    rewrite <- Hid. now apply in_map.
  - unfold UseFilters.updateFilter. simpl.
    assert (Hc0 : Str.eqb (id c0) (id c) = false).
    { apply Str_eqb_neq. intros Hid. apply Hnotin. rewrite Hid.
      apply in_map. apply list_elem_of_In. now apply (list_elem_of_lookup_2 _ n). }
    rewrite Hc0. f_equal. now apply IH.
Qed.

(** X23. The handlers of a row keep the rows in place: after a change of
    field, of operator or of value the list has the same identifiers in the
    same order, so neither a row is added nor removed nor moved. *)
Theorem handlers_keep_row_ids fields c cs :
  (∀ k, map id (FilterRow.after (FilterRow.handleFieldChange fields c k) cs) = map id cs)
  ∧ (∀ op, map id (FilterRow.after (FilterRow.handleOperatorChange fields c op) cs)
           = map id cs)
  ∧ (∀ v, map id (FilterRow.after (FilterRow.handleValueChange c v) cs) = map id cs).
Proof.
  split; [| split].
  - intros k. unfold FilterRow.handleFieldChange.
    destruct (FilterRow.findField fields k) as [fd |]; [| reflexivity].
    destruct (OPERATORS_BY_TYPE (type fd)); [reflexivity |].
    now apply updateFilter_ids.
  - intros op. unfold FilterRow.handleOperatorChange.
    destruct (FilterRow.findField fields (fieldKey c)); [| reflexivity].
    now apply updateFilter_ids.
  - intros v. now apply updateFilter_ids.
Qed.

Lemma isValidFilter_isActive c :
  isValidFilter c = true → value c ≠ FvStr "" → value c ≠ FvUndefined → isActive c = true.
Proof.
  unfold isValidFilter, isActive. intros Hv Hs Hu.
  destruct (Str.eqb (fieldKey c) ""); [discriminate |].
  destruct (Str.eqb (operator c) ""); [discriminate |]. simpl in *.
  destruct (value c) as [| | s | | | | |]; try reflexivity; try congruence.
  str_cases s ""; [now subst s | reflexivity].
Qed.

(** X24. The badge does not undercount: when no valid condition has the
    empty string or [undefined] as its value (which the validator accepts
    under a relative date operator only), every condition that the filter
    pass applies is counted as active. *)
Theorem active_count_covers_valid cs :
  (∀ c, In c cs → isValidFilter c = true → value c ≠ FvStr "" ∧ value c ≠ FvUndefined) →
  (length (List.filter isValidFilter cs) ≤ activeFilterCount cs)%nat.
Proof.
  intros Hval. unfold activeFilterCount. apply filter_length_le.
  intros c Hc Hv. destruct (Hval c Hc Hv). now apply isValidFilter_isActive.
Qed.

(** X25. The connector [OR] between two rows is sound: when it is shown
    between a row and the row before it, both valid conditions, the two have
    the same field key, and in the object by which the filter pass groups
    the valid conditions the two are in one and the same group, the group of
    that field key.  The grouping returns unless a valid condition is on a
    field key that a plain object inherits, where it raises. *)
Theorem or_connector_is_sound cs (index : nat) previous c :
  cs !! index = Some previous → cs !! S index = Some c →
  connector previous c = "OR" →
  isValidFilter previous = true → isValidFilter c = true →
  fieldKey previous = fieldKey c
  ∧ match groupByField (List.filter isValidFilter cs) with
    | Ret groupedByField =>
        ∃ g, In (fieldKey c, g) (Object_entries groupedByField)
             ∧ In previous g ∧ In c g
    | Throw e =>
        e = pushError
        ∧ ∃ c', In c' cs ∧ isValidFilter c' = true ∧ inheritedName (fieldKey c') = true
    end.
Proof.
  unfold connector. intros Hp Hc Hor Hvp Hvc.
  apply list_elem_of_lookup_2, list_elem_of_In in Hp, Hc.
  destruct (Str.eqb (fieldKey previous) (fieldKey c)) eqn:Ek; [| discriminate].
  apply Str_eqb_eq in Ek. split; [exact Ek |].
  assert (Hc' : In c (List.filter isValidFilter cs)) by (apply List.filter_In; auto).
  assert (Hp' : In previous (List.filter isValidFilter cs)) by (apply List.filter_In; auto).
  rewrite groupByField_groups.
  destruct (existsb _ _) eqn:Einh.
  - split; [reflexivity |]. apply existsb_exists in Einh as (c' & Hin & Hinh).
    apply List.filter_In in Hin as [Hin Hv]. eauto.
  - exists (groupOf (List.filter isValidFilter cs) (fieldKey c)). split; [| split].
    + apply Object_entries_In. now apply groups_spec.
    + now apply groupOf_In.
    + now apply groupOf_In.
Qed.

End Editor.

(* ------------------------------------------------------------------ *)
(** ** One row with several values, several rows with one value *)

Section Selections.
Context (H : Host).

Lemma Object_entries_one {A} (k : string) (g : A) : Object_entries [(k, g)] = [(k, g)].
Proof.
  unfold Object_entries, indexedEntries, isArrayIndex. simpl.
  destruct (Str.arrayIndex k); reflexivity.
Qed.

Lemma matchMultiSelect_in (values : JsValue) (l : list string) :
  l ≠ [] →
  matchMultiSelect (if isArray values then values else JArr []) (FvList l) "in"
  = Ret (existsb (arrayIncludes (default [] (arrayElements values))) l).
Proof.
  intros Hl. unfold matchMultiSelect, isArray.
  destruct (arrayElements values) as [elems |] eqn:Ev; simpl; [rewrite Ev |];
    (destruct l as [| x l]; [now destruct Hl | reflexivity]).
Qed.

(** X26. A MultiSelect row with the operator [in] and several values is
    the same filter as one row per part of the values: for a field key that
    the schema defines as MultiSelect or not at all, the row with the values
    [l1 ++ l2] and the two rows with [l1] and with [l2] give the same
    outcome. *)
Theorem in_row_splits data fds (k i i1 i2 : string) (l1 l2 : list string) :
  (∀ fd, lookupField fds k = Some fd → type fd = FieldType.MultiSelect) →
  k ≠ "" → l1 ≠ [] → l2 ≠ [] →
  applyFilters H data
    [{| id := i; fieldKey := k; operator := "in"; value := FvList (l1 ++ l2) |}] fds
  = applyFilters H data
      [{| id := i1; fieldKey := k; operator := "in"; value := FvList l1 |};
       {| id := i2; fieldKey := k; operator := "in"; value := FvList l2 |}] fds.
Proof.
  intros Htype Hk Hl1 Hl2. rewrite !applyFilters_pass.
  assert (Hl : l1 ++ l2 ≠ []) by (destruct l1; [now destruct Hl1 | discriminate]).
  assert (Hvalid : ∀ j l, l ≠ [] →
            isValidFilter {| id := j; fieldKey := k; operator := "in"; value := FvList l |}
            = true).
  { intros j l Hne. unfold isValidFilter. simpl. apply Str_eqb_neq in Hk. rewrite Hk.
    destruct l; [now destruct Hne | reflexivity]. }
  simpl. rewrite !Hvalid by assumption. simpl. rewrite orb_false_r, orb_diag.
  destruct (inheritedName k); [reflexivity |].
  apply filterA_ext. intros record _.
  unfold groups. simpl. unfold groups_step. simpl. rewrite !Str_eqb_refl. simpl.
  rewrite !Str_eqb_refl. simpl. rewrite !Object_entries_one. simpl.
  rewrite !groupSatisfied_lookup.
  destruct (lookupField fds k) as [fd |] eqn:Ek; [| reflexivity].
  specialize (Htype fd eq_refl). simpl.
  rewrite !(matchCondition_MultiSelect H record _ fd Htype). simpl.
  rewrite !matchMultiSelect_in by assumption. simpl.
  rewrite existsb_app.
  destruct (existsb _ l1); [reflexivity |]. simpl. now destruct (existsb _ l2).
Qed.

End Selections.

(* ------------------------------------------------------------------ *)
(** ** The rows of the CSV export *)

Lemma includes_char_cons (c a : ascii) (s : string) :
  Str.includes (String a s) (String c EmptyString) = false →
  Ascii.eqb a c = false ∧ Str.includes s (String c EmptyString) = false.
Proof.
  simpl. destruct (ascii_dec c a) as [-> | Hne].
  - destruct s; discriminate.
  - intros Hs. split; [| exact Hs]. apply Ascii.eqb_neq. congruence.
Qed.

(** A field that ends the row, or that a comma and the rest follow. *)
Definition followedBy (rest : option string) : string :=
  match rest with
  | None => EmptyString
  | Some r => String "," r
  end.

Lemma readPlain_cell (cell : string) (rest : option string) :
  Str.includes cell "," = false →
  CsvReader.readPlain (cell +:+ followedBy rest) = (cell, rest).
Proof.
  induction cell as [| a cell IH]; intros Hc.
  - destruct rest; reflexivity.
  - apply includes_char_cons in Hc as [Ha Hc]. simpl. rewrite Ha.
    change (String.append cell (followedBy rest)) with (cell +:+ followedBy rest).
    now rewrite (IH Hc).
Qed.

Lemma readQuoted_cell (cell : string) (rest : option string) :
  CsvReader.readQuoted (CsvExport.doubleQuotes cell +:+ String CsvExport.quote (followedBy rest))
  = (cell, rest).
Proof.
  induction cell as [| a cell IH].
  - destruct rest; reflexivity.
  - simpl. destruct (Ascii.eqb a CsvExport.quote) eqn:Ea.
    + apply Ascii.eqb_eq in Ea. subst a. simpl.
      change (String.append (CsvExport.doubleQuotes cell)
                (String CsvExport.quote (followedBy rest)))
        with (CsvExport.doubleQuotes cell +:+ String CsvExport.quote (followedBy rest)).
      now rewrite IH.
    + simpl. rewrite Ea.
      change (String.append (CsvExport.doubleQuotes cell)
                (String CsvExport.quote (followedBy rest)))
        with (CsvExport.doubleQuotes cell +:+ String CsvExport.quote (followedBy rest)).
      now rewrite IH.
Qed.

Lemma append_assoc (a b c : string) : (a +:+ b) +:+ c = a +:+ (b +:+ c).
Proof.
  unfold String.app. induction a as [| x a IH]; simpl; [reflexivity | now rewrite IH].
Qed.

Lemma append_empty_r (a : string) : a +:+ "" = a.
Proof.
  unfold String.app. induction a as [| x a IH]; simpl; [reflexivity | now rewrite IH].
Qed.

Lemma readField_cell (cell : string) (rest : option string) :
  CsvReader.readField (CsvExport.escapeCell cell +:+ followedBy rest) = (cell, rest).
Proof.
  unfold CsvExport.escapeCell.
  destruct (Str.includes cell ",") eqn:Ec; simpl.
  - rewrite append_assoc. simpl. apply readQuoted_cell.
  - destruct (Str.includes cell (String CsvExport.quote "")) eqn:Eq; simpl.
    + rewrite append_assoc. simpl. apply readQuoted_cell.
    + rewrite <- (readPlain_cell cell rest Ec). unfold CsvReader.readField.
      destruct cell as [| a cell]; simpl.
      * destruct rest; reflexivity.
      * apply includes_char_cons in Eq as [Ha _]. now rewrite Ha.
Qed.

Lemma csvRow_cons (cell : string) (cells : list string) :
  CsvExport.csvRow (cell :: cells)
  = CsvExport.escapeCell cell
    +:+ followedBy (match cells with [] => None | _ => Some (CsvExport.csvRow cells) end).
Proof.
  unfold CsvExport.csvRow. destruct cells as [| cell' cells]; simpl.
  - now rewrite append_empty_r.
  - reflexivity.
Qed.

(** X27. A data row of the CSV export can be read in one way only: two
    lists of as many cells that give the same row are the same list.  The
    quoting loses nothing, whatever commas and double quotes the cells
    hold. *)
Theorem csvRow_injective (cells1 cells2 : list string) :
  length cells1 = length cells2 →
  CsvExport.csvRow cells1 = CsvExport.csvRow cells2 →
  cells1 = cells2.
Proof.
  revert cells2. induction cells1 as [| c1 cells1 IH]; intros [| c2 cells2] Hlen Hrow;
    try discriminate; [reflexivity |].
  injection Hlen as Hlen. rewrite !csvRow_cons in Hrow.
  apply (f_equal CsvReader.readField) in Hrow. rewrite !readField_cell in Hrow.
  injection Hrow as -> Hrest. f_equal.
  destruct cells1 as [| d1 cells1], cells2 as [| d2 cells2]; try discriminate;
    [reflexivity |].
  apply IH; [exact Hlen | congruence].
Qed.

(* ------------------------------------------------------------------ *)
(** ** The further properties on the sample records *)

Lemma applyFilters_idempotent_on_staff :
  Scenario.run Scenario.staff [Scenario.inSales] Scenario.schema = Ret [Scenario.bob]
  ∧ Scenario.run [Scenario.bob] [Scenario.inSales] Scenario.schema = Ret [Scenario.bob].
Proof.
  assert (Hrun : Scenario.run Scenario.staff [Scenario.inSales] Scenario.schema
                 = Ret [Scenario.bob]) by (vm_compute; reflexivity).
  split; [exact Hrun |].
  exact (applyFilters_idempotent SampleHost.host Scenario.staff [Scenario.inSales]
           Scenario.schema [Scenario.bob] Hrun).
Defined.

Lemma applyFilters_sublist_on_staff :
  Scenario.run Scenario.staff [Scenario.active] Scenario.schema
  = Ret [Scenario.alice; Scenario.carol]
  ∧ sublist [Scenario.alice; Scenario.carol] Scenario.staff.
Proof.
  assert (Hrun : Scenario.run Scenario.staff [Scenario.active] Scenario.schema
                 = Ret [Scenario.alice; Scenario.carol]) by (vm_compute; reflexivity).
  split; [exact Hrun |].
  exact (applyFilters_sublist SampleHost.host Scenario.staff [Scenario.active]
           Scenario.schema _ Hrun).
Defined.




(** The order of the conditions decides whether the pass raises: on a
    record whose name cannot be converted, the pass returns when the group
    that rejects the record comes first, and raises when the group on the
    name comes first. *)
Example order_decides_what_is_raised :
  Scenario.run [Scenario.dave] [Scenario.inEngineering; Scenario.nameStartsWithB]
    Scenario.schema = Ret []
  ∧ Scenario.run [Scenario.dave] [Scenario.nameStartsWithB; Scenario.inEngineering]
      Scenario.schema = Throw toPrimitiveError.
Proof. split; vm_compute; reflexivity. Qed.


Lemma schema_later_definition_wins_on_staff :
  key (Session.level FieldType.Number) = key (Session.level FieldType.Text)
  ∧ Scenario.run Scenario.staff [Session.row "r" "level" "contains" (FvStr "a")]
      ([] ++ Session.level FieldType.Number
          :: [] ++ Session.level FieldType.Text :: Scenario.schema)
    = Scenario.run Scenario.staff [Session.row "r" "level" "contains" (FvStr "a")]
        ([] ++ [] ++ Session.level FieldType.Text :: Scenario.schema).
Proof.
  assert (Hkey : key (Session.level FieldType.Number) = key (Session.level FieldType.Text))
    by reflexivity.
  split; [exact Hkey |].
  exact (schema_later_definition_wins SampleHost.host Scenario.staff
           [Session.row "r" "level" "contains" (FvStr "a")] [] [] Scenario.schema
           (Session.level FieldType.Number) (Session.level FieldType.Text) Hkey).
Defined.


(** Without the conversions, one pass and two passes differ: the pass
    visits the groups in the order of [Object.entries], the group of the key
    ["2"] first, where the conversion raises; in two steps the first pass
    rejects the record and the second one does not see it. *)
Example one_pass_raises_where_two_return :
  Scenario.run [[("b", JStr "x"); ("2", JObj [("toString", Scenario.num 1)])]]
    ([Scenario.cond "b" "is" (FvStr "zzz")] ++ [Scenario.cond "2" "contains" (FvStr "x")])
    [Scenario.field "b" FieldType.SingleSelect; Scenario.field "2" FieldType.Text]
  = Throw toPrimitiveError
  ∧ (out ← Scenario.run [[("b", JStr "x"); ("2", JObj [("toString", Scenario.num 1)])]]
             [Scenario.cond "b" "is" (FvStr "zzz")]
             [Scenario.field "b" FieldType.SingleSelect; Scenario.field "2" FieldType.Text];
     Scenario.run out [Scenario.cond "2" "contains" (FvStr "x")]
       [Scenario.field "b" FieldType.SingleSelect; Scenario.field "2" FieldType.Text])
    = Ret [].
Proof. split; vm_compute; reflexivity. Qed.

Lemma applyFilters_raises_only_TypeError_on_staff :
  Scenario.run Scenario.staff
    [Scenario.cond "name" "contains" (FvNum (SampleHost.number_of_Z 5))] Scenario.schema
  = Throw (TypeError "filterValue.toLowerCase is not a function")
  ∧ ∃ message, TypeError "filterValue.toLowerCase is not a function" = TypeError message.
Proof.
  assert (Hrun : Scenario.run Scenario.staff
                   [Scenario.cond "name" "contains" (FvNum (SampleHost.number_of_Z 5))]
                   Scenario.schema
                 = Throw (TypeError "filterValue.toLowerCase is not a function"))
    by (vm_compute; reflexivity).
  split; [exact Hrun |].
  exact (applyFilters_raises_only_TypeError SampleHost.host Scenario.staff _ Scenario.schema
           _ Hrun).
Defined.


(** A record value that cannot be converted makes the pass raise, however
    well formed the conditions are. *)
Example well_formed_conditions_raise_on_dave :
  wellFormed Scenario.schema [Scenario.nameStartsWithB]
  ∧ Scenario.run [Scenario.dave] [Scenario.nameStartsWithB] Scenario.schema
    = Throw toPrimitiveError
  ∧ Scenario.run [Scenario.dave]
      [Scenario.cond "projects" "gt" (FvNum (SampleHost.number_of_Z 2))] Scenario.schema
    = Throw toPrimitiveError.
Proof.
  split.
  - intros c Hc _. simpl in Hc. destruct Hc as [<- | []]. split; [reflexivity |].
    intros fd Hfd. vm_compute in Hfd. injection Hfd as <-. reflexivity.
  - split; vm_compute; reflexivity.
Qed.

Lemma undefined_field_keys_on_staff :
  (∀ c, In c [Scenario.ghost; Scenario.nameStartsWithB] → isValidFilter c = true →
        hasDefinition Scenario.schema (fieldKey c) = false →
        inheritedName (fieldKey c) = false)
  ∧ Scenario.run Scenario.staff [Scenario.ghost; Scenario.nameStartsWithB] Scenario.schema
    = Scenario.run Scenario.staff
        (List.filter (λ c, hasDefinition Scenario.schema (fieldKey c))
           [Scenario.ghost; Scenario.nameStartsWithB])
        Scenario.schema.
Proof.
  assert (Hclean : ∀ c, In c [Scenario.ghost; Scenario.nameStartsWithB] →
                     isValidFilter c = true →
                     hasDefinition Scenario.schema (fieldKey c) = false →
                     inheritedName (fieldKey c) = false).
  { intros c Hc _ _. simpl in Hc. destruct Hc as [<- | [<- | []]]; reflexivity. }
  split; [exact Hclean |].
  exact (undefined_field_keys_are_ignored SampleHost.host Scenario.staff
           [Scenario.ghost; Scenario.nameStartsWithB] Scenario.schema Hclean).
Defined.

(** *** Matchers *)

Lemma not_a_number_never_matches_on_alice :
  (type Session.bonus = FieldType.Number ∨ type Session.bonus = FieldType.Amount)
  ∧ ToNumber SampleHost.host
      (getNestedValue SampleHost.host Scenario.alice (fieldKey Session.bonusIsNot))
    = Ret PrimFloat.nan
  ∧ PrimFloat.is_nan PrimFloat.nan = true
  ∧ matchCondition SampleHost.host Scenario.alice Session.bonusIsNot Session.bonus = Ret false.
Proof.
  assert (Ht : type Session.bonus = FieldType.Number ∨ type Session.bonus = FieldType.Amount)
    by (left; reflexivity).
  assert (Hnum : ToNumber SampleHost.host
                   (getNestedValue SampleHost.host Scenario.alice
                      (fieldKey Session.bonusIsNot)) = Ret PrimFloat.nan) by reflexivity.
  assert (Hnan : PrimFloat.is_nan PrimFloat.nan = true) by reflexivity.
  split; [exact Ht |]. split; [exact Hnum |]. split; [exact Hnan |].
  exact (not_a_number_never_matches SampleHost.host Scenario.alice Session.bonusIsNot
           Session.bonus PrimFloat.nan Ht Hnum Hnan).
Defined.

(** A value that does not convert at all is another matter: the conversion
    raises. *)
Example number_conversion_raises_on_dave :
  ToNumber SampleHost.host (getNestedValue SampleHost.host Scenario.dave "projects")
  = Throw toPrimitiveError
  ∧ matchCondition SampleHost.host Scenario.dave
      (Scenario.cond "projects" "neq" (FvNum (SampleHost.number_of_Z 5)))
      (Scenario.field "projects" FieldType.Number) = Throw toPrimitiveError.
Proof. split; vm_compute; reflexivity. Qed.

Lemma numberBetween_is_amount_range_on_alice :
  type (Scenario.field "projects" FieldType.Number) = FieldType.Number
  ∧ type (Scenario.field "projects" FieldType.Amount) = FieldType.Amount
  ∧ operator Session.projectsBetween = "numberBetween"
  ∧ matchCondition SampleHost.host Scenario.alice Session.projectsBetween
      (Scenario.field "projects" FieldType.Number)
    = matchCondition SampleHost.host Scenario.alice Session.projectsBetween
        (Scenario.field "projects" FieldType.Amount).
Proof.
  split; [reflexivity |]. split; [reflexivity |]. split; [reflexivity |].
  exact (numberBetween_is_amount_range SampleHost.host Scenario.alice Session.projectsBetween
           (Scenario.field "projects" FieldType.Number)
           (Scenario.field "projects" FieldType.Amount) eq_refl eq_refl eq_refl).
Defined.

Lemma empty_bound_is_unbounded_on_three :
  PrimFloat.is_nan (SampleHost.number_of_Z 3) = false
  ∧ matchAmountRange (SampleHost.number_of_Z 3) (FvNumberRange EmptyStr EmptyStr) = Ret true
  ∧ matchAmountRange (SampleHost.number_of_Z 3)
      (FvNumberRange (NumVal (SampleHost.number_of_Z 5)) EmptyStr)
    = Ret (num_ge (SampleHost.number_of_Z 3) (SampleHost.number_of_Z 5))
  ∧ matchAmountRange (SampleHost.number_of_Z 3)
      (FvNumberRange EmptyStr (NumVal (SampleHost.number_of_Z 5)))
    = Ret (num_le (SampleHost.number_of_Z 3) (SampleHost.number_of_Z 5)).
Proof.
  assert (Hn : PrimFloat.is_nan (SampleHost.number_of_Z 3) = false) by reflexivity.
  split; [exact Hn |].
  exact (empty_bound_is_unbounded (SampleHost.number_of_Z 3) (SampleHost.number_of_Z 5)
           (SampleHost.number_of_Z 5) Hn).
Defined.

Lemma relative_date_operators_on_last7days :
  In "last7days" ["last7days"; "last30days"; "last90days"]
  ∧ (∀ c, fieldKey c ≠ "" → operator c = "last7days" → isValidFilter c = true)
  ∧ ∀ v, ∃ b, ∀ fv, matchDate SampleHost.host v fv "last7days" = Ret b.
Proof.
  assert (Hop : In "last7days" ["last7days"; "last30days"; "last90days"]) by now left.
  split; [exact Hop |].
  exact (relative_date_operators_need_no_value SampleHost.host "last7days" Hop).
Defined.

Lemma single_date_picker_on_before :
  ("before" = "before" ∨ "before" = "after")
  ∧ ∃ shown,
      SingleDateInput.dateValue (FvDateRange "19000" "") "before" = Ret shown
      ∧ matchDate SampleHost.host "19990" (FvDateRange "19000" "") "before"
        = Ret (isValid SampleHost.host (dayjs SampleHost.host "19990")
               && match truthyString shown with
                  | Some d =>
                      if Str.eqb "before" "before"
                      then isBefore SampleHost.host (dayjs SampleHost.host "19990")
                             (dayjs SampleHost.host d) day
                      else isAfter SampleHost.host (dayjs SampleHost.host "19990")
                             (dayjs SampleHost.host d) day
                  | None => true
                  end)
      ∧ ∀ picked, SingleDateInput.dateValue (SingleDateInput.onChange "before" picked) "before"
                  = Ret (Some picked).
Proof.
  assert (Hop : "before" = "before" ∨ "before" = "after") by now left.
  split; [exact Hop |].
  exact (single_date_picker_shows_the_bound SampleHost.host "19990" "19000" "" "before" Hop).
Defined.

(** *** The editor *)

Lemma NoDup_FILTER_FIELDS : NoDup (map key Config.FILTER_FIELDS).
Proof. apply (bool_decide_unpack _). vm_compute. exact I. Defined.

Lemma NoDup_session_ids : NoDup (map id Session.rows).
Proof. apply (bool_decide_unpack _). vm_compute. exact I. Defined.

Lemma findField_is_lookupField_on_FILTER_FIELDS :
  NoDup (map key Config.FILTER_FIELDS)
  ∧ FilterRow.findField Config.FILTER_FIELDS "salary"
    = lookupField Config.FILTER_FIELDS "salary"
  ∧ ∀ selectedField fieldDef,
      FilterRow.findField Config.FILTER_FIELDS "salary" = Some selectedField →
      lookupField Config.FILTER_FIELDS "salary" = Some fieldDef →
      OPERATORS_BY_TYPE (type selectedField) = OPERATORS_BY_TYPE (type fieldDef).
Proof.
  split; [exact NoDup_FILTER_FIELDS |].
  exact (findField_is_lookupField Config.FILTER_FIELDS "salary" NoDup_FILTER_FIELDS).
Defined.

(** With two definitions of one key the row and the pass disagree: the row
    offers the operators of a Number field, and the pass evaluates the
    condition by the Text matcher, which raises on the number. *)
Example findField_differs_from_lookupField :
  FilterRow.findField Session.twice "level" = Some (Session.level FieldType.Number)
  ∧ lookupField Session.twice "level" = Some (Session.level FieldType.Text)
  ∧ FilterRow.after
      (FilterRow.handleFieldChange Session.twice (UseFilters.emptyCondition "r") "level")
      [UseFilters.emptyCondition "r"]
    = [Session.row "r" "level" "eq" (FvNum PrimFloat.zero)]
  ∧ Scenario.run Scenario.staff [Session.row "r" "level" "eq" (FvNum PrimFloat.zero)]
      Session.twice
    = Throw (TypeError "filterValue.toLowerCase is not a function").
Proof. repeat split; vm_compute; reflexivity. Qed.


(** In the application, choosing the field Projects on a row filters at
    once by [projects = 0], which no sample record satisfies. *)
Example field_change_on_projects_empties_the_table :
  FilterRow.after
    (FilterRow.handleFieldChange Config.FILTER_FIELDS (UseFilters.emptyCondition "r")
       "projects")
    [UseFilters.emptyCondition "r"]
  = [Session.row "r" "projects" "eq" (FvNum PrimFloat.zero)]
  ∧ applyFilters SampleHost.host Scenario.staff
      [Session.row "r" "projects" "eq" (FvNum PrimFloat.zero)] Config.FILTER_FIELDS
    = Ret [].
Proof. split; vm_compute; reflexivity. Qed.

Lemma field_change_filters_at_once_on_projects :
  FilterRow.handleFieldChange Config.FILTER_FIELDS Session.sales "projects"
  = FilterRow.OnUpdate "filter-1-1000"
      {| UseFilters.p_id := None;
         UseFilters.p_fieldKey := Some "projects";
         UseFilters.p_operator := Some "eq";
         UseFilters.p_value := Some (FvNum PrimFloat.zero) |}
  ∧ FilterRow.findField Config.FILTER_FIELDS "projects"
    = Some {| key := "projects"; label := "Projects"; type := FieldType.Number;
              options := None; nested := None |}
  ∧ "projects" ≠ ""
  ∧ isValidFilter (Session.row "filter-1-1000" "projects" "eq" (FvNum PrimFloat.zero)) = true.
Proof.
  assert (Hh : FilterRow.handleFieldChange Config.FILTER_FIELDS Session.sales "projects"
               = FilterRow.OnUpdate "filter-1-1000"
                   {| UseFilters.p_id := None;
                      UseFilters.p_fieldKey := Some "projects";
                      UseFilters.p_operator := Some "eq";
                      UseFilters.p_value := Some (FvNum PrimFloat.zero) |}) by reflexivity.
  assert (Hf : FilterRow.findField Config.FILTER_FIELDS "projects"
               = Some {| key := "projects"; label := "Projects"; type := FieldType.Number;
                         options := None; nested := None |}) by reflexivity.
  assert (Hk : "projects" ≠ "") by discriminate.
  split; [exact Hh |]. split; [exact Hf |]. split; [exact Hk |].
  exact (field_change_filters_at_once Config.FILTER_FIELDS Session.sales "projects" _ _ _
           Hh Hf Hk).
Defined.

Lemma removeFilter_addFilter_on_session :
  (∀ c, In c Session.rows → id c ≠ "filter-4-1003")
  ∧ UseFilters.removeFilter "filter-4-1003" (UseFilters.addFilter "filter-4-1003" Session.rows)
    = Session.rows.
Proof.
  assert (Hfresh : ∀ c, In c Session.rows → id c ≠ "filter-4-1003").
  { intros c Hc. simpl in Hc. destruct Hc as [<- | [<- | [<- | []]]]; discriminate. }
  split; [exact Hfresh |].
  exact (removeFilter_addFilter Session.rows "filter-4-1003" Hfresh).
Defined.

Lemma updateFilter_touches_one_row_on_session :
  NoDup (map id Session.rows)
  ∧ Session.rows !! 1%nat = Some Session.engineering
  ∧ UseFilters.updateFilter (id Session.engineering)
      {| UseFilters.p_id := None; UseFilters.p_fieldKey := None;
         UseFilters.p_operator := None; UseFilters.p_value := Some (FvStr "Finance") |}
      Session.rows
    = [Session.sales; Session.row "filter-2-1001" "department" "is" (FvStr "Finance");
       Session.active].
Proof.
  split; [exact NoDup_session_ids |]. split; [reflexivity |].
  exact (updateFilter_touches_one_row Session.rows 1 Session.engineering
           {| UseFilters.p_id := None; UseFilters.p_fieldKey := None;
              UseFilters.p_operator := None; UseFilters.p_value := Some (FvStr "Finance") |}
           NoDup_session_ids eq_refl).
Defined.

Lemma active_count_covers_valid_on_session :
  (∀ c, In c (Session.freshDate :: Session.rows) → isValidFilter c = true →
        value c ≠ FvStr "" ∧ value c ≠ FvUndefined)
  ∧ (length (List.filter isValidFilter (Session.freshDate :: Session.rows))
     ≤ activeFilterCount (Session.freshDate :: Session.rows))%nat.
Proof.
  assert (Hval : ∀ c, In c (Session.freshDate :: Session.rows) → isValidFilter c = true →
                      value c ≠ FvStr "" ∧ value c ≠ FvUndefined).
  { intros c Hc _. simpl in Hc.
    destruct Hc as [<- | [<- | [<- | [<- | []]]]]; split; discriminate. }
  split; [exact Hval |].
  exact (active_count_covers_valid (Session.freshDate :: Session.rows) Hval).
Defined.

(** The badge can overcount: a Date row without a date is counted, and the
    filter pass ignores it. *)
Example active_count_exceeds_valid :
  isActive Session.freshDate = true
  ∧ isValidFilter Session.freshDate = false
  ∧ activeFilterCount (Session.freshDate :: Session.rows) = 4%nat
  ∧ length (List.filter isValidFilter (Session.freshDate :: Session.rows)) = 3%nat.
Proof. repeat split; reflexivity. Qed.

Lemma or_connector_is_sound_on_session :
  Session.rows !! 0%nat = Some Session.sales
  ∧ Session.rows !! 1%nat = Some Session.engineering
  ∧ connector Session.sales Session.engineering = "OR"
  ∧ isValidFilter Session.sales = true ∧ isValidFilter Session.engineering = true
  ∧ groupByField (List.filter isValidFilter Session.rows)
    = Ret [("department", [Session.sales; Session.engineering]);
           ("isActive", [Session.active])]
  ∧ fieldKey Session.sales = fieldKey Session.engineering
  ∧ ∃ g, In (fieldKey Session.engineering, g)
           (Object_entries
              [("department", [Session.sales; Session.engineering]);
               ("isActive", [Session.active])])
         ∧ In Session.sales g ∧ In Session.engineering g.
Proof.
  assert (Hp : Session.rows !! 0%nat = Some Session.sales) by reflexivity.
  assert (Hc : Session.rows !! 1%nat = Some Session.engineering) by reflexivity.
  assert (Hor : connector Session.sales Session.engineering = "OR") by reflexivity.
  assert (Hvp : isValidFilter Session.sales = true) by reflexivity.
  assert (Hvc : isValidFilter Session.engineering = true) by reflexivity.
  assert (Hg : groupByField (List.filter isValidFilter Session.rows)
               = Ret [("department", [Session.sales; Session.engineering]);
                      ("isActive", [Session.active])]) by reflexivity.
  repeat (split; [assumption |]).
  exact (or_connector_is_sound Session.rows 0 Session.sales Session.engineering
           Hp Hc Hor Hvp Hvc).
Defined.

(** Between two valid rows on an inherited name the connector is shown,
    and the grouping raises. *)
Example or_connector_on_inherited_name :
  connector Scenario.ghostConstructor Scenario.ghostConstructor = "OR"
  ∧ groupByField
      (List.filter isValidFilter [Scenario.ghostConstructor; Scenario.ghostConstructor])
    = Throw pushError.
Proof. split; reflexivity. Qed.

(** The connector [AND] is shown between two rows of one group when
    another row stands between them: the pass groups by field key, wherever
    the rows are. *)
Example and_connector_within_a_group :
  connector Session.active Session.engineering = "AND"
  ∧ connector Session.sales Session.active = "AND"
  ∧ groups (List.filter isValidFilter [Session.sales; Session.active; Session.engineering])
    = [("department", [Session.sales; Session.engineering]); ("isActive", [Session.active])]
  ∧ Scenario.run Scenario.staff [Session.sales; Session.active; Session.engineering]
      Scenario.schema = Ret [Scenario.alice].
Proof. repeat split; vm_compute; reflexivity. Qed.

(** *** The CSV export *)

Lemma csvRow_injective_on_cells :
  length ["Doe, Jane"; "Sales"] = length ["Doe, Jane"; "Sales"]
  ∧ CsvExport.csvRow ["Doe, Jane"; "Sales"] = CsvExport.csvRow ["Doe, Jane"; "Sales"]
  ∧ ["Doe, Jane"; "Sales"] = ["Doe, Jane"; "Sales"].
Proof.
  split; [reflexivity |]. split; [reflexivity |].
  exact (csvRow_injective ["Doe, Jane"; "Sales"] ["Doe, Jane"; "Sales"] eq_refl eq_refl).
Defined.

(** The header line is joined as it is: a key that holds a comma reads as
    two columns, whereas a cell that holds one is quoted. *)
Example csvHeader_is_ambiguous :
  CsvExport.csvHeader ["Doe, Jane"] = CsvExport.csvHeader ["Doe"; " Jane"]
  ∧ CsvExport.csvRow ["Doe, Jane"] ≠ CsvExport.csvRow ["Doe"; " Jane"]
  ∧ CsvReader.readField (CsvExport.csvRow ["Doe, Jane"; "Sales"]) = ("Doe, Jane", Some "Sales").
Proof. split; [reflexivity |]. split; [discriminate | reflexivity]. Qed.

(** *** One row with several values *)

Lemma in_row_splits_on_staff :
  (∀ fd, lookupField Scenario.schema "skills" = Some fd → type fd = FieldType.MultiSelect)
  ∧ "skills" ≠ "" ∧ ["Go"] ≠ [] ∧ ["SQL"] ≠ []
  ∧ Scenario.run Scenario.staff [Session.row "a" "skills" "in" (FvList (["Go"] ++ ["SQL"]))]
      Scenario.schema
    = Scenario.run Scenario.staff
        [Session.row "b" "skills" "in" (FvList ["Go"]);
         Session.row "c" "skills" "in" (FvList ["SQL"])]
        Scenario.schema
  ∧ Scenario.run Scenario.staff [Session.row "a" "skills" "in" (FvList (["Go"] ++ ["SQL"]))]
      Scenario.schema
    = Ret [Scenario.alice; Scenario.bob].
Proof.
  assert (Ht : ∀ fd, lookupField Scenario.schema "skills" = Some fd →
                     type fd = FieldType.MultiSelect).
  { intros fd Hfd. vm_compute in Hfd. injection Hfd as <-. reflexivity. }
  assert (Hk : "skills" ≠ "") by discriminate.
  assert (H1 : ["Go"] ≠ ([] : list string)) by discriminate.
  assert (H2 : ["SQL"] ≠ ([] : list string)) by discriminate.
  repeat (split; [assumption |]).
  split; [| vm_compute; reflexivity].
  exact (in_row_splits SampleHost.host Scenario.staff Scenario.schema "skills" "a" "b" "c"
           ["Go"] ["SQL"] Ht Hk H1 H2).
Defined.
